(** * transifex.native.cds: the client of the Content Delivery Service

    A shallow embedding of [src/transifex/native/cds.py] (class [CDSHandler])
    and the properties of its three operations: [fetch_languages],
    [fetch_translations] and [push_source_strings].

    Python objects that travel through the client (JSON bodies, metadata,
    translation payloads) are values of the type [value]; a [dict] is an
    association list in insertion order with unique keys, as in CPython 3.7+
    (the order decides which item wins when two metadata keys are renamed to
    the same key).
    Methods run in a state-and-exception monad: the state holds the local
    variables of the running method, the messages passed to [logger.error] and
    the HTTP requests issued so far, and it survives a raised exception, as
    in Python. *)

From Stdlib Require Import List String Ascii ZArith Bool Lia.
From Stdlib Require Import DecimalString FinFun.
Import ListNotations.
Local Open Scope string_scope.
Local Open Scope Z_scope.

(** ** Values *)

#[local] Set Warnings "-register-all".

Inductive value : Type :=
| VNone
| VBool (b : bool)
| VInt (n : Z)
| VFloat (m e : Z)            (* the finite double m * 2^e *)
| VStr (s : string)
| VList (l : list value)
| VDict (d : list (string * value)).

(** The truth value Python gives an object in [if x:] and [not x]. *)
Definition truthy (v : value) : bool :=
  match v with
  | VNone => false
  | VBool b => b
  | VInt n => negb (n =? 0)
  | VFloat m _ => negb (m =? 0)
  | VStr s => negb (String.eqb s "")
  | VList l => match l with [] => false | _ => true end
  | VDict d => match d with [] => false | _ => true end
  end.

(** [not x] for an attribute that holds [None] or a string. *)
Definition truthy_str (o : option string) : bool :=
  match o with
  | None => false
  | Some s => negb (String.eqb s "")
  end.

(** The object itself. *)
Definition value_of_str (o : option string) : value :=
  match o with
  | None => VNone
  | Some s => VStr s
  end.

(** What [str.format] substitutes for an attribute that holds [None] or a
    string. *)
Definition format_str (o : option string) : string :=
  match o with
  | None => "None"
  | Some s => s
  end.

(** Decimal text of an integer, as [str.format] prints it. *)
Definition format_int (n : Z) : string :=
  NilZero.string_of_int (Z.to_int n).

(** ** Dictionaries with string keys *)

Definition dict (A : Type) : Type := list (string * A).

Fixpoint dict_get {A} (d : dict A) (k : string) : option A :=
  match d with
  | [] => None
  | (k', v) :: d' => if String.eqb k k' then Some v else dict_get d' k
  end.

(** [d[k] = v]: an existing key keeps its position, a new key goes last. *)
Fixpoint dict_set {A} (d : dict A) (k : string) (v : A) : dict A :=
  match d with
  | [] => [(k, v)]
  | (k', v') :: d' =>
      if String.eqb k k' then (k', v) :: d' else (k', v') :: dict_set d' k v
  end.

(** [{k: v for k, v in pairs}] and dict displays: items are stored from left
    to right. *)
Definition dict_of_pairs {A} (pairs : list (string * A)) : dict A :=
  fold_left (fun d kv => dict_set d (fst kv) (snd kv)) pairs [].

Definition keys {A} (d : dict A) : list string := map fst d.

(** ** Exceptions

    The classes the client raises, meets or tells apart in its [except]
    clauses; each carries the text [str(e)] gives. [ValueError] stands for
    the class and its subclasses ([json.JSONDecodeError], and the requests
    errors that derive from it); [ConnectionError] is
    [requests.ConnectionError]; [RequestException] is any other error of the
    requests library; [PyException] is a plain [Exception]. *)

Inductive exn : Type :=
| KeyError (msg : string)
| ValueError (msg : string)
| TypeError (msg : string)
| UnboundLocalError (msg : string)
| ConnectionError (msg : string)
| HTTPError (msg : string)
| RequestException (msg : string)
| PyException (msg : string).

Definition str (e : exn) : string :=
  match e with
  | KeyError m | ValueError m | TypeError m | UnboundLocalError m
  | ConnectionError m | HTTPError m | RequestException m | PyException m => m
  end.

(** [except (KeyError, ValueError)] *)
Definition is_KeyError_or_ValueError (e : exn) : bool :=
  match e with
  | KeyError _ | ValueError _ => true
  | _ => false
  end.

(** [except requests.ConnectionError] *)
Definition is_ConnectionError (e : exn) : bool :=
  match e with
  | ConnectionError _ => true
  | _ => false
  end.

(** [except Exception] *)
Definition is_Exception (e : exn) : bool := true.

(** ** HTTP messages *)

Inductive http_method : Type := GET | POST.

Record Request : Type := mkRequest {
  req_method : http_method;
  req_url : string;
  req_headers : list (string * string);
  req_json : option value
}.

(** What comes back from the exchange: status line and body, and the URL
    the library reports for the response. [body] is the result of decoding
    the body as JSON, [None] when the body is not JSON. [final_url] is the
    URL of the request as the library prepared it (host in lower case, path
    percent-encoded), or of the last request when redirects were followed;
    it need not be the string the client passed. *)
Record Reply : Type := mkReply {
  status_code : Z;
  reason : string;
  body : option value;
  final_url : string
}.

(** What sending a request leads to: an exception of the requests library or
    a reply. *)
Inductive Outcome : Type :=
| Raises (e : exn)
| Replies (r : Reply).

(** [requests.Response]: the reply and its [url] attribute. *)
Record Response : Type := mkResponse {
  url : string;
  reply : Reply
}.

(** ** The monad of method bodies *)

Record Machine (F : Type) : Type := mkMachine {
  frame : F;                  (* local variables of the running method *)
  log : list string;          (* arguments of logger.error, oldest first *)
  sent : list Request         (* requests issued, oldest first *)
}.
Arguments mkMachine {F} _ _ _.
Arguments frame {F} _.
Arguments log {F} _.
Arguments sent {F} _.

Definition M (F A : Type) : Type := Machine F -> (exn + A) * Machine F.

Definition ret {F A} (a : A) : M F A := fun s => (inr a, s).

Definition bind {F A B} (m : M F A) (k : A -> M F B) : M F B :=
  fun s =>
    match m s with
    | (inr a, s') => k a s'
    | (inl e, s') => (inl e, s')
    end.

Definition raise {F A} (e : exn) : M F A := fun s => (inl e, s).

Definition get_local {F} : M F F := fun s => (inr (frame s), s).

Definition put_local {F} (f : F) : M F unit :=
  fun s => (inr tt, mkMachine f (log s) (sent s)).

Definition lift {F A} (r : exn + A) : M F A := fun s => (r, s).

Declare Scope py_scope.
Delimit Scope py_scope with py.
Notation "x <- m ;; k" := (bind m (fun x => k))
  (at level 61, m at next level, right associativity) : py_scope.
Notation "m ;; k" := (bind m (fun _ => k))
  (at level 61, right associativity) : py_scope.
Local Open Scope py_scope.

(** [logger.error(msg)] *)
Definition logger_error {F} (msg : string) : M F unit :=
  fun s => (inr tt, mkMachine (frame s) (log s ++ [msg]) (sent s)).

(** An [except] clause: the test on the exception's class and the body. *)
Definition clause (F A : Type) : Type := (exn -> bool) * (exn -> M F A).

Fixpoint dispatch {F A} (clauses : list (clause F A)) (e : exn) : M F A :=
  match clauses with
  | [] => raise e
  | (test, handler) :: rest => if test e then handler e else dispatch rest e
  end.

(** [try: body  except ...: ...]: the first clause whose class matches
    handles the exception; the state reached when it was raised is kept. *)
Definition try_except {F A} (body : M F A) (clauses : list (clause F A)) : M F A :=
  fun s =>
    match body s with
    | (inr a, s') => (inr a, s')
    | (inl e, s') => dispatch clauses e s'
    end.

(** [for x in xs: body x] *)
Fixpoint for_each {F A} (xs : list A) (body : A -> M F unit) : M F unit :=
  match xs with
  | [] => ret tt
  | x :: xs' => body x ;; for_each xs' body
  end.

(** A call of a method with its own frame [init]; the log and the requests
    are shared with the caller. *)
Definition call {F G A} (init : G) (m : M G A) : M F A :=
  fun s =>
    let (r, s') := m (mkMachine init (log s) (sent s)) in
    (r, mkMachine (frame s) (log s') (sent s')).

(** A method called from outside, on a fresh log and no request issued. *)
Definition run {F A} (init : F) (m : M F A) : (exn + A) * Machine F :=
  m (mkMachine init [] []).

(** ** Operations of Python on values *)

(** [v[k]] for a string [k]. The wording of the [TypeError]s is that of
    CPython 3.11; no property below depends on it. *)
Definition subscript (v : value) (k : string) : exn + value :=
  match v with
  | VDict d =>
      match dict_get d k with
      | Some x => inr x
      | None => inl (KeyError ("'" ++ k ++ "'"))
      end
  | VList _ => inl (TypeError "list indices must be integers or slices, not str")
  | VStr _ => inl (TypeError "string indices must be integers, not 'str'")
  | VNone => inl (TypeError "'NoneType' object is not subscriptable")
  | VBool _ => inl (TypeError "'bool' object is not subscriptable")
  | VInt _ => inl (TypeError "'int' object is not subscriptable")
  | VFloat _ _ => inl (TypeError "'float' object is not subscriptable")
  end.

Fixpoint chars (s : string) : list value :=
  match s with
  | EmptyString => []
  | String c s' => VStr (String c EmptyString) :: chars s'
  end.

(** The items [for x in v] runs over. *)
Definition iterate (v : value) : exn + list value :=
  match v with
  | VList l => inr l
  | VDict d => inr (map (fun kv => VStr (fst kv)) d)
  | VStr s => inr (chars s)
  | VNone => inl (TypeError "'NoneType' object is not iterable")
  | VBool _ => inl (TypeError "'bool' object is not iterable")
  | VInt _ => inl (TypeError "'int' object is not iterable")
  | VFloat _ _ => inl (TypeError "'float' object is not iterable")
  end.

(** [[f(x) for x in xs]]: stops at the first [f(x)] that raises. *)
Fixpoint comprehension {A B} (f : A -> exn + B) (xs : list A) : exn + list B :=
  match xs with
  | [] => inr []
  | x :: xs' =>
      match f x with
      | inl e => inl e
      | inr y =>
          match comprehension f xs' with
          | inl e => inl e
          | inr ys => inr (y :: ys)
          end
      end
  end.

(** [set(xs)] hashes every item: lists and dicts cannot be hashed. *)
Definition hash_check (v : value) : exn + value :=
  match v with
  | VList _ => inl (TypeError "unhashable type: 'list'")
  | VDict _ => inl (TypeError "unhashable type: 'dict'")
  | _ => inr v
  end.

(** The strings among the items: the only items that can be equal to a
    configured language code, which is a string. *)
Fixpoint strings_of (vs : list value) : list string :=
  match vs with
  | [] => []
  | VStr s :: vs' => s :: strings_of vs'
  | _ :: vs' => strings_of vs'
  end.

(** ** The requests library

    [requests] is not part of the repository. The client uses [get], [post]
    and, on a response, [ok], [reason], [raise_for_status] and [json]; they
    are modelled after the library: [raise_for_status] raises [HTTPError] for
    a status from 400 to 599 with the text the tests of the repository
    expect ([400 Client Error: Bad Request for url: ...]), and [ok] is true
    when [raise_for_status] does not raise.

    The network is a function [net] from the request to its outcome. A
    method of the client never issues the same request twice in one call, so
    nothing is lost by leaving the time of the request out. The [url] of a
    response is the one the exchange reports ([final_url]), not the string
    passed to [get] or [post]; [sent] records the calls with the arguments
    the client passes. *)

Module requests.

Section Net.
Variable net : Request -> Outcome.

Definition send {F} (rq : Request) : M F Response :=
  fun s =>
    let s' := mkMachine (frame s) (log s) (sent s ++ [rq]) in
    match net rq with
    | Raises e => (inl e, s')
    | Replies r => (inr (mkResponse (final_url r) r), s')
    end.

(** [requests.get(url, headers=headers)] *)
Definition get {F} (u : string) (headers : list (string * string)) : M F Response :=
  send (mkRequest GET u headers None).

(** [requests.post(url, headers=headers, json=json)] *)
Definition post {F} (u : string) (headers : list (string * string)) (json : value)
  : M F Response :=
  send (mkRequest POST u headers (Some json)).

End Net.

Definition http_error_msg (r : Response) : option string :=
  let c := status_code (reply r) in
  if (400 <=? c) && (c <? 500) then
    Some (format_int c ++ " Client Error: " ++ reason (reply r)
            ++ " for url: " ++ url r)
  else if (500 <=? c) && (c <? 600) then
    Some (format_int c ++ " Server Error: " ++ reason (reply r)
            ++ " for url: " ++ url r)
  else None.

(** [response.raise_for_status()] *)
Definition raise_for_status {F} (r : Response) : M F unit :=
  match http_error_msg r with
  | Some msg => raise (HTTPError msg)
  | None => ret tt
  end.

(** [response.ok] *)
Definition ok (r : Response) : bool :=
  match http_error_msg r with
  | Some _ => false
  | None => true
  end.

(** [response.json()] *)
Definition json {F} (r : Response) : M F value :=
  match body (reply r) with
  | Some v => ret v
  | None => raise (ValueError "Expecting value: line 1 column 1 (char 0)")
  end.

End requests.

(** ** Module constants *)

Definition TRANSIFEX_CDS_HOST : string := "https://cds.svc.transifex.net".

(** [TRANSIFEX_CDS_URLS]: the three paths; the second is the template
    ['/content/{language_code}'] with its only field filled in by
    [str.format]. *)
Definition FETCH_AVAILABLE_LANGUAGES : string := "/languages".
Definition FETCH_TRANSLATIONS_FOR_LANGUAGE (language_code : string) : string :=
  "/content/" ++ language_code.
Definition PUSH_SOURCE_STRINGS : string := "/content/".

(** ** Source strings

    [transifex.native.parsing.SourceString] is not among the sources; the
    handler reads four attributes of it. *)

Record SourceString : Type := mkSourceString {
  ss_key : string;
  ss_string : string;
  ss_meta : dict value;
  ss_context : value
}.

(** ** The handler *)

Record CDSHandler : Type := mkCDSHandler {
  configured_language_codes : list string;
  token : string;
  secret : option string;
  host : string
}.

(** [CDSHandler.__init__]: [self.host = host or TRANSIFEX_CDS_HOST]. *)
Definition __init__ (configured_languages : list string) (tok : string)
    (sec : option string) (h : option string) : CDSHandler :=
  mkCDSHandler configured_languages tok sec
    match h with
    | Some u => if String.eqb u "" then TRANSIFEX_CDS_HOST else u
    | None => TRANSIFEX_CDS_HOST
    end.

Section Client.

(** The network. *)
Variable net : Request -> Outcome.

(** The order in which Python runs over [set(a) & set(b)], for lists of
    strings [a] and [b]. Python fixes no order; [iteration_order] below is
    all that is known of it. *)
Variable set_and : list string -> list string -> list string.

(** The keys of [transifex.native.consts], which is not among the sources. *)
Variables KEY_DEVELOPER_COMMENT KEY_CHARACTER_LIMIT KEY_TAGS : string.

Definition MAPPING : dict string :=
  dict_of_pairs
    [ (KEY_DEVELOPER_COMMENT, "developer_comment");
      (KEY_CHARACTER_LIMIT, "character_limit");
      (KEY_TAGS, "tags") ].

(** [MAPPING.get(k, k)] *)
Definition MAPPING_get (k : string) : string :=
  match dict_get MAPPING k with
  | Some k' => k'
  | None => k
  end.

(** [fetch_languages]; the frame is the local variable [languages]. *)
Definition fetch_languages (self : CDSHandler) : M value value :=
  let cds_url := FETCH_AVAILABLE_LANGUAGES in
  put_local (VList []) ;;
  try_except
    (response <- requests.get net (host self ++ cds_url)
                   [("Authorization", "Bearer " ++ token self)] ;;
     (if negb (requests.ok response) then
        logger_error ("Error retrieving languages from CDS: `"
                        ++ reason (reply response) ++ "`") ;;
        requests.raise_for_status response
      else ret tt) ;;
     json_content <- requests.json response ;;
     data <- lift (subscript json_content "data") ;;
     put_local data)
    [ (is_KeyError_or_ValueError, fun _ =>
         logger_error "Error retrieving languages from CDS: Malformed response");
      (is_ConnectionError, fun _ =>
         logger_error "Error retrieving languages from CDS: ConnectionError");
      (is_Exception, fun e =>
         logger_error ("Error retrieving languages from CDS: UnknownError (`"
                         ++ str e ++ "`)")) ] ;;
  get_local.

(** [[lang['code'] for lang in languages]] *)
Definition codes_of (languages : value) : exn + list value :=
  match iterate languages with
  | inl e => inl e
  | inr langs => comprehension (fun lang => subscript lang "code") langs
  end.

(** The codes [for language_code in set(languages) & set(configured)] runs
    over: [set(languages)] is built first and raises on an item that cannot
    be hashed. *)
Definition codes_to_fetch (self : CDSHandler) (languages : list value)
  : exn + list string :=
  match comprehension hash_check languages with
  | inl e => inl e
  | inr hashed => inr (set_and (strings_of hashed) (configured_language_codes self))
  end.

(** The body of the loop of [fetch_translations]. *)
Definition fetch_one (self : CDSHandler) (language_code : string)
  : M (dict value) unit :=
  response <- requests.get net
                (host self ++ FETCH_TRANSLATIONS_FOR_LANGUAGE language_code)
                [("Authorization", "Bearer " ++ token self)] ;;
  (if negb (requests.ok response) then
     logger_error ("Error retrieving translations from CDS: `"
                     ++ reason (reply response) ++ "`") ;;
     requests.raise_for_status response
   else ret tt) ;;
  json_content <- requests.json response ;;
  data <- lift (subscript json_content "data") ;;
  translations <- get_local ;;
  put_local (dict_set translations language_code data).

(** [fetch_translations]; the frame is the local variable [translations]. *)
Definition fetch_translations (self : CDSHandler) (language_code : option string)
  : M (dict value) (dict value) :=
  put_local [] ;;
  try_except
    (languages <-
       (if negb (truthy_str language_code) then
          fetched <- call VNone (fetch_languages self) ;;
          lift (codes_of fetched)
        else ret [value_of_str language_code]) ;;
     codes <- lift (codes_to_fetch self languages) ;;
     for_each codes (fetch_one self))
    [ (is_KeyError_or_ValueError, fun _ =>
         logger_error "Error retrieving translations from CDS: Malformed response");
      (is_ConnectionError, fun _ =>
         logger_error "Error retrieving translations from CDS: ConnectionError");
      (is_Exception, fun e =>
         logger_error ("Error retrieving translations from CDS: UnknownError (`"
                         ++ str e ++ "`)")) ] ;;
  get_local.

(** [_serialize] *)
Definition _serialize (source_string : SourceString) : string * value :=
  let meta :=
    dict_of_pairs
      (map (fun kv => (MAPPING_get (fst kv), snd kv)) (ss_meta source_string)) in
  let meta :=
    if truthy (ss_context source_string)
    then dict_set meta "context" (ss_context source_string)
    else meta in
  (ss_key source_string,
   VDict [("string", VStr (ss_string source_string)); ("meta", VDict meta)]).

(** [push_source_strings]; the frame is the local variable [response],
    [None] as long as nothing was assigned to it. *)
Definition push_source_strings (self : CDSHandler) (strings : list SourceString)
    (purge : bool) : M (option Response) Response :=
  if negb (truthy_str (secret self)) then
    raise (PyException
             "You need to use `TRANSIFEX_SECRET` when pushing source content")
  else
    let cds_url := PUSH_SOURCE_STRINGS in
    let data := dict_of_pairs (map _serialize strings) in
    try_except
      (response <- requests.post net (host self ++ cds_url)
                     [("Authorization",
                       "Bearer " ++ token self ++ ":" ++ format_str (secret self))]
                     (VDict [("data", VDict data);
                             ("meta", VDict [("purge", VBool purge)])]) ;;
       put_local (Some response) ;;
       requests.raise_for_status response)
      [ (is_ConnectionError, fun _ =>
           logger_error "Error pushing source strings to CDS: ConnectionError");
        (is_Exception, fun e =>
           logger_error ("Error pushing source strings to CDS: UnknownError (`"
                           ++ str e ++ "`)")) ] ;;
    response <- get_local ;;
    match response with
    | Some r => ret r
    | None =>
        raise (UnboundLocalError
                 "cannot access local variable 'response' where it is not associated with a value")
    end.

End Client.

(** ** Vocabulary of the specification *)

(** The order of iteration over [set(a) & set(b)]: each common element
    once, in some order. *)
Definition iteration_order (set_and : list string -> list string -> list string)
  : Prop :=
  forall a b, NoDup (set_and a b) /\
              forall x, In x (set_and a b) <-> In x a /\ In x b.

(** The three keys of [transifex.native.consts] are different strings. *)
Definition distinct_keys (k1 k2 k3 : string) : Prop := NoDup [k1; k2; k3].

(** [GET <host>/languages] with the bearer token. *)
Definition languages_request (self : CDSHandler) : Request :=
  mkRequest GET (host self ++ "/languages")
    [("Authorization", "Bearer " ++ token self)] None.

(** [GET <host>/content/<language_code>] with the bearer token. *)
Definition content_request (self : CDSHandler) (language_code : string) : Request :=
  mkRequest GET (host self ++ "/content/" ++ language_code)
    [("Authorization", "Bearer " ++ token self)] None.

(** [POST <host>/content/] with the credential [token:secret] and a JSON
    body. *)
Definition push_request (self : CDSHandler) (sec : string) (json : value) : Request :=
  mkRequest POST (host self ++ "/content/")
    [("Authorization", "Bearer " ++ token self ++ ":" ++ sec)] (Some json).

(** The status is in the 2xx range. *)
Definition status_2xx (c : Z) : Prop := 200 <= c < 300.

(** The status is a client or server error, 400 to 599. *)
Definition error_status (c : Z) : Prop := 400 <= c < 600.

(** The text of the HTTP error for an error status: status code, kind,
    reason phrase and URL. *)
Definition http_error_text (c : Z) (phrase u : string) : string :=
  format_int c ++ (if c <? 500 then " Client Error: " else " Server Error: ")
    ++ phrase ++ " for url: " ++ u.

(** The [data] field of a successful exchange: a reply whose status is not
    an error status and whose body is a JSON object with a [data] key. Every
    other outcome is a failure of the read, [None]. *)
Definition reply_data (o : Outcome) : option value :=
  match o with
  | Raises _ => None
  | Replies r =>
      if (400 <=? status_code r) && (status_code r <? 600) then None
      else match body r with
           | Some (VDict d) => dict_get d "data"
           | _ => None
           end
  end.

(** The failures of a content request: the request raised; the reply has
    an error status; the body is not JSON or is a JSON object without
    [data]; the body is JSON but not an object, so that [body['data']]
    raises the [TypeError] whose text is [detail]. *)
Inductive failure : Type :=
| RequestRaised (e : exn)
| StatusFailure (c : Z) (phrase u : string)
| MalformedBody
| BodyNotAnObject (detail : string).

Definition failure_of (o : Outcome) : option failure :=
  match o with
  | Raises e => Some (RequestRaised e)
  | Replies r =>
      if (400 <=? status_code r) && (status_code r <? 600)
      then Some (StatusFailure (status_code r) (reason r) (final_url r))
      else match body r with
           | None => Some MalformedBody
           | Some (VDict d) =>
               match dict_get d "data" with
               | None => Some MalformedBody
               | Some _ => None
               end
           | Some j =>
               match subscript j "data" with
               | inl e => Some (BodyNotAnObject (str e))
               | inr _ => None
               end
           end
  end.

(** What [fetch_translations] logs for each of them: one message of the
    three-way classification, preceded by the reason phrase for an error
    status. *)
Definition translations_errors (f : failure) : list string :=
  match f with
  | RequestRaised e =>
      [if is_KeyError_or_ValueError e
       then "Error retrieving translations from CDS: Malformed response"
       else if is_ConnectionError e
       then "Error retrieving translations from CDS: ConnectionError"
       else "Error retrieving translations from CDS: UnknownError (`"
              ++ str e ++ "`)"]
  | StatusFailure c phrase u =>
      ["Error retrieving translations from CDS: `" ++ phrase ++ "`";
       "Error retrieving translations from CDS: UnknownError (`"
         ++ http_error_text c phrase u ++ "`)"]
  | MalformedBody =>
      ["Error retrieving translations from CDS: Malformed response"]
  | BodyNotAnObject detail =>
      ["Error retrieving translations from CDS: UnknownError (`"
         ++ detail ++ "`)"]
  end.

(** The message is one of [fetch_languages]. *)
Definition languages_error (m : string) : bool :=
  String.prefix "Error retrieving languages from CDS" m.

(** The message is one of [fetch_translations]. *)
Definition translations_error (m : string) : bool :=
  String.prefix "Error retrieving translations from CDS" m.

(** [s] occurs in [t]. *)
Definition contains (s t : string) : Prop :=
  exists a b, t = a ++ s ++ b.

(** The serialization rule in the words of the specification: the three
    known metadata keys are renamed, every other key is kept. *)
Definition rename (k1 k2 k3 : string) (k : string) : string :=
  if String.eqb k k1 then "developer_comment"
  else if String.eqb k k2 then "character_limit"
  else if String.eqb k k3 then "tags"
  else k.

(** The value the last pair with key [k] holds, if any pair has it. *)
Fixpoint lookup_last {A} (pairs : list (string * A)) (k : string) : option A :=
  match pairs with
  | [] => None
  | (k', v) :: rest =>
      match lookup_last rest k with
      | Some x => Some x
      | None => if String.eqb k k' then Some v else None
      end
  end.

(** [d] is the mapping assembled from [pairs]: it has each key once, and
    under a key the value of the last pair with that key. *)
Definition mapping_of {A} (d : dict A) (pairs : list (string * A)) : Prop :=
  NoDup (keys d) /\ forall k, dict_get d k = lookup_last pairs k.

(** What the [meta] of a source string holds under [k] by the serialization
    rule: the context under [context] when the context is not empty,
    otherwise the metadata value under the key renamed. *)
Definition spec_meta_lookup (k1 k2 k3 : string) (s : SourceString) (k : string)
  : option value :=
  if truthy (ss_context s) && String.eqb k "context" then Some (ss_context s)
  else lookup_last
         (map (fun kv => (rename k1 k2 k3 (fst kv), snd kv)) (ss_meta s)) k.

(** The JSON body [push_source_strings] posts, as the code builds it. *)
Definition posted_body (k1 k2 k3 : string) (strings : list SourceString)
    (purge : bool) : value :=
  VDict [("data", VDict (dict_of_pairs (map (_serialize k1 k2 k3) strings)));
         ("meta", VDict [("purge", VBool purge)])].

(** The language list was obtained: [names] are the codes the loop of
    [fetch_translations] intersects with the configured ones, and [first]
    the requests issued to obtain them. Either a non-empty code was given, or
    [/languages] answered with a list of records that each have a string
    under [code]. *)
Inductive languages_known (net : Request -> Outcome) (self : CDSHandler)
  : option string -> list string -> list Request -> Prop :=
| code_given (c : string) :
    c <> "" -> languages_known net self (Some c) [c] []
| codes_fetched (lc : option string) (langs : list (dict value))
    (names : list string) :
    truthy_str lc = false ->
    reply_data (net (languages_request self)) = Some (VList (map VDict langs)) ->
    Forall2 (fun d n => dict_get d "code" = Some (VStr n)) langs names ->
    languages_known net self lc names [languages_request self].

(** The [except] clauses of [fetch_translations]. *)
#[local] Abbreviation translations_clauses :=
  [ (is_KeyError_or_ValueError, fun _ : exn =>
       logger_error "Error retrieving translations from CDS: Malformed response");
    (is_ConnectionError, fun _ : exn =>
       logger_error "Error retrieving translations from CDS: ConnectionError");
    (is_Exception, fun e : exn =>
       logger_error ("Error retrieving translations from CDS: UnknownError (`"
                       ++ str e ++ "`)")) ].

(** ** Sample handlers and networks *)

Definition sample_handler : CDSHandler :=
  __init__ ["el"; "en"] "some_token" None (Some "https://some.host").

Definition sample_pusher : CDSHandler :=
  __init__ ["el"; "en"] "some_token" (Some "some_secret") (Some "https://some.host").

(** Each common element once, in the order of the first list. *)
Definition sample_set_and (a b : list string) : list string :=
  filter (fun x => existsb (String.eqb x) b) (nodup string_dec a).

Definition sample_languages : value :=
  VList [VDict [("code", VStr "el")]; VDict [("code", VStr "en")]].

Definition sample_el : value :=
  VDict [("key1", VDict [("string", VStr "key1_el")]);
         ("key2", VDict [("string", VStr "key2_el")])].

(** A server that answers [/languages] with the given status and phrase and
    the two languages, [/content/el] with its translations, [/content/en]
    with a 500, and any POST with the status and phrase. The URLs requested
    are already in the form the library prepares, and are reported as they
    are. *)
Definition sample_net (c : Z) (phrase : string) (rq : Request) : Outcome :=
  match req_method rq with
  | POST =>
      Replies (mkReply c phrase (Some (VDict [("data", VList [])])) (req_url rq))
  | GET =>
      if String.eqb (req_url rq) "https://some.host/languages" then
        Replies (mkReply c phrase
                   (Some (VDict [("data", sample_languages);
                                 ("meta", VDict [("some_key", VStr "some_value")])]))
                   (req_url rq))
      else if String.eqb (req_url rq) "https://some.host/content/el" then
        Replies (mkReply 200 "OK" (Some (VDict [("data", sample_el)])) (req_url rq))
      else Replies (mkReply 500 "Internal Server Error" None (req_url rq))
  end.

(** No server can be reached. *)
Definition unreachable_net (rq : Request) : Outcome :=
  Raises (ConnectionError "Connection refused").

Definition sample_string : SourceString :=
  mkSourceString "k1" "some_string"
    [("_comment", VStr "a comment"); ("_charlimit", VInt 20); ("other", VBool true)]
    (VStr "ctx").

Definition sample_string' : SourceString :=
  mkSourceString "k1" "another_string" [("_tags", VList [VStr "t"])] VNone.

(** ** The helper of the tests

    [TestCDSHandler._lang_lists_equal] of [src/tests/native/core/test_cds.py]
    compares the result of [fetch_languages] with the expected list. Two
    builtins of Python are parameters: [sorted_by_code items] is
    [sorted(items, key=itemgetter('code'))], which raises when a key cannot
    be read or two keys cannot be compared, and [ne x y] is [x != y]. *)

Section TestHelpers.

Variable sorted_by_code : list value -> exn + list value.
Variable ne : value -> value -> bool.

(** [sorted(l, key=itemgetter('code'))] for any object [l]: its items are
    listed first. *)
Definition sorted_code (l : value) : exn + list value :=
  match iterate l with
  | inl e => inl e
  | inr items => sorted_by_code items
  end.

(** [_lang_lists_equal]: [zip] stops at the end of the shorter list, as
    [combine] does; [except Exception] sets [difference] to [True]. *)
Definition _lang_lists_equal (list_1 list_2 : value) : bool :=
  let difference :=
    match sorted_code list_1 with
    | inl _ => true
    | inr sorted_1 =>
        match sorted_code list_2 with
        | inl _ => true
        | inr sorted_2 =>
            let pairs := combine sorted_1 sorted_2 in
            existsb (fun xy => ne (fst xy) (snd xy)) pairs
        end
    end in
  negb difference.

End TestHelpers.

(** ** More samples *)

(** A server that answers every request with 200 and the given body. *)
Definition payload_net (j : option value) (rq : Request) : Outcome :=
  Replies (mkReply 200 "OK" j (req_url rq)).

(** A handler whose host is written with capitals, and one configured for a
    code with a space. *)
Definition sample_handler_capitals : CDSHandler :=
  __init__ ["el"; "en"] "some_token" None (Some "https://Some.Host").

Definition sample_handler_space : CDSHandler :=
  __init__ ["pt BR"] "some_token" None (Some "https://some.host").

(** A server that is not found, behind a library that reports the URL it
    prepared: the host in lower case, the space percent-encoded. *)
Definition preparing_net (rq : Request) : Outcome :=
  Replies
    (mkReply 404 "Not Found" None
       (if String.eqb (req_url rq) "https://Some.Host/languages"
        then "https://some.host/languages"
        else if String.eqb (req_url rq) "https://some.host/content/pt BR"
        then "https://some.host/content/pt%20BR"
        else req_url rq)).

(** A handler configured for one language. *)
Definition sample_handler_el : CDSHandler :=
  __init__ ["el"] "some_token" None (Some "https://some.host").

(** A handler constructed without a host. *)
Definition sample_handler_default : CDSHandler :=
  __init__ ["el"; "en"] "some_token" None None.

(** Insertion of an item by its code, after the items with the same code. *)
Fixpoint insert_by_code (k : string) (x : value) (l : list (string * value))
  : list (string * value) :=
  match l with
  | [] => [(k, x)]
  | (k', y) :: l' =>
      if String.ltb k k' then (k, x) :: l else (k', y) :: insert_by_code k x l'
  end.

(** A stable sort by code for items whose codes are strings; it raises on
    any other item. *)
Definition sample_sorted (items : list value) : exn + list value :=
  match
    comprehension
      (fun x =>
         match subscript x "code" with
         | inr (VStr k) => inr (k, x)
         | inr _ => inl (TypeError "'<' not supported")
         | inl e => inl e
         end)
      items
  with
  | inl e => inl e
  | inr keyed =>
      inr (map snd (fold_left (fun l kx => insert_by_code (fst kx) (snd kx) l)
                      keyed []))
  end.

(** Structural equality of values. *)
Fixpoint value_eqb (a b : value) : bool :=
  match a, b with
  | VNone, VNone => true
  | VBool x, VBool y => Bool.eqb x y
  | VInt x, VInt y => x =? y
  | VFloat m e, VFloat m' e' => (m =? m') && (e =? e')
  | VStr s, VStr t => String.eqb s t
  | VList l, VList l' =>
      (fix go (l l' : list value) : bool :=
         match l, l' with
         | [], [] => true
         | x :: l, y :: l' => value_eqb x y && go l l'
         | _, _ => false
         end) l l'
  | VDict d, VDict d' =>
      (fix go (d d' : list (string * value)) : bool :=
         match d, d' with
         | [], [] => true
         | (k, x) :: d, (k', y) :: d' =>
             String.eqb k k' && value_eqb x y && go d d'
         | _, _ => false
         end) d d'
  | _, _ => false
  end.

Definition sample_ne (x y : value) : bool := negb (value_eqb x y).

(** * Properties *)

(** ** Strings *)

Lemma append_nil_r (s : string) : s ++ "" = s.
Proof. induction s as [|c s IH]; cbn; [|rewrite IH]; reflexivity. Qed.

Lemma append_assoc (s t u : string) : s ++ t ++ u = (s ++ t) ++ u.
Proof. induction s as [|c s IH]; cbn; [|rewrite IH]; reflexivity. Qed.

Lemma append_inv_head (s t u : string) : s ++ t = s ++ u -> t = u.
Proof.
  induction s as [|c s IH]; cbn; intros H; [exact H|].
  injection H as H. exact (IH H).
Qed.

#[local] Arguments String.append : simpl never.

(** ** The requests library *)

Lemma http_error_msg_error (r : Response) :
  error_status (status_code (reply r)) ->
  requests.http_error_msg r
  = Some (http_error_text (status_code (reply r)) (reason (reply r)) (url r)).
Proof.
  unfold error_status, requests.http_error_msg, http_error_text. intros [Hlo Hhi].
  apply Z.leb_le in Hlo. rewrite Hlo. cbn [andb].
  destruct (status_code (reply r) <? 500) eqn:E; [reflexivity|].
  apply Z.ltb_ge in E. apply Z.ltb_lt in Hhi. rewrite Hhi.
  apply Z.leb_le in E. rewrite E. reflexivity.
Qed.

Lemma http_error_msg_none (r : Response) :
  (400 <=? status_code (reply r)) && (status_code (reply r) <? 600) = false ->
  requests.http_error_msg r = None.
Proof.
  unfold requests.http_error_msg. intros H.
  destruct (400 <=? status_code (reply r)) eqn:E1; cbn [andb] in *.
  - destruct (status_code (reply r) <? 500) eqn:E2.
    + apply Z.ltb_lt in E2. apply Z.ltb_ge in H. lia.
    + rewrite H, andb_false_r. reflexivity.
  - apply Z.leb_gt in E1.
    replace (500 <=? status_code (reply r)) with false
      by (symmetry; apply Z.leb_gt; lia).
    reflexivity.
Qed.

Lemma error_status_test (c : Z) :
  error_status c <-> (400 <=? c) && (c <? 600) = true.
Proof.
  unfold error_status. rewrite andb_true_iff, Z.leb_le, Z.ltb_lt. reflexivity.
Qed.

(** ** fetch_languages *)

Section Reads.

Variable net : Request -> Outcome.
Variable self : CDSHandler.

(** Runs [fetch_languages] up to the outcome of its request. *)
Ltac step_languages :=
  unfold fetch_languages, bind, try_except, requests.get, requests.send,
    put_local, FETCH_AVAILABLE_LANGUAGES;
  cbn;
  fold (languages_request self).

(** Closes a goal [exists msgs, run = ... msgs ... /\ msgs <> [] /\ Forall _ msgs]
    once the run is evaluated. *)
Ltac logged :=
  eexists; (split; [reflexivity|]); (split; [discriminate|]); repeat constructor.

(** A successful exchange: the [data] is returned, nothing is logged. *)

Lemma fetch_languages_ok (v : value) (s : Machine value) :
  reply_data (net (languages_request self)) = Some v ->
  fetch_languages net self s
  = (inr v, mkMachine v (log s) (sent s ++ [languages_request self])).
Proof.
  unfold reply_data. intros H. step_languages.
  destruct (net (languages_request self)) as [e|r]; [discriminate|].
  destruct ((400 <=? status_code r) && (status_code r <? 600)) eqn:E;
    [discriminate|].
  unfold requests.ok. rewrite http_error_msg_none by exact E. cbn.
  unfold requests.json. cbn.
  destruct (body r) as [[ | | | | | |d]|]; try discriminate.
  cbn. unfold lift. cbn. rewrite H. reflexivity.
Qed.

(** An error status: two messages, the empty list. *)
Lemma fetch_languages_error_status (r : Reply) (s : Machine value) :
  net (languages_request self) = Replies r ->
  error_status (status_code r) ->
  fetch_languages net self s
  = (inr (VList []),
     mkMachine (VList [])
       (log s ++
        ["Error retrieving languages from CDS: `" ++ reason r ++ "`";
         "Error retrieving languages from CDS: UnknownError (`"
           ++ http_error_text (status_code r) (reason r) (final_url r) ++ "`)"])
       (sent s ++ [languages_request self])).
Proof.
  intros Hnet Herr. step_languages. rewrite Hnet.
  unfold requests.ok, requests.raise_for_status.
  rewrite http_error_msg_error by exact Herr. cbn.
  rewrite <- app_assoc. reflexivity.
Qed.

(** Any failure: the empty list, and messages of [fetch_languages] only. *)
Lemma fetch_languages_failed (s : Machine value) :
  reply_data (net (languages_request self)) = None ->
  exists msgs,
    fetch_languages net self s
    = (inr (VList []),
       mkMachine (VList []) (log s ++ msgs) (sent s ++ [languages_request self]))
    /\ msgs <> []
    /\ Forall (fun m => languages_error m = true /\ translations_error m = false) msgs.
Proof.
  unfold reply_data. intros H.
  destruct (net (languages_request self)) as [e|r] eqn:Hnet.
  - step_languages. rewrite Hnet.
    destruct e; cbn; logged.
  - destruct ((400 <=? status_code r) && (status_code r <? 600)) eqn:E.
    + apply error_status_test in E.
      rewrite (fetch_languages_error_status r s Hnet E). logged.
    + step_languages. rewrite Hnet.
      unfold requests.ok. rewrite http_error_msg_none by exact E. cbn.
      unfold requests.json. cbn.
      destruct (body r) as [[ | | | | | |d]|]; cbn; try logged.
      unfold lift. cbn. rewrite H. cbn. logged.
Qed.

End Reads.

(** ** The loop of fetch_translations *)

Section Loop.

Variable net : Request -> Outcome.
Variable self : CDSHandler.

(** Runs [fetch_one] up to the outcome of its request. *)
Ltac step_one c :=
  unfold fetch_one, bind, requests.get, requests.send,
    FETCH_TRANSLATIONS_FOR_LANGUAGE;
  cbn;
  fold (content_request self c).

(** A successful exchange: the [data] is stored under the code. *)
Lemma fetch_one_ok (c : string) (v : value) (s : Machine (dict value)) :
  reply_data (net (content_request self c)) = Some v ->
  fetch_one net self c s
  = (inr tt,
     mkMachine (dict_set (frame s) c v) (log s)
       (sent s ++ [content_request self c])).
Proof.
  unfold reply_data. intros H. step_one c.
  destruct (net (content_request self c)) as [e|r]; [discriminate|].
  destruct ((400 <=? status_code r) && (status_code r <? 600)) eqn:E;
    [discriminate|].
  unfold requests.ok. rewrite http_error_msg_none by exact E. cbn.
  unfold requests.json. cbn.
  destruct (body r) as [[ | | | | | |d]|]; try discriminate.
  cbn. unfold lift. cbn. rewrite H. reflexivity.
Qed.

(** A failed content request ends the loop: the handler logs and the rest
    of the loop is skipped. *)
Lemma fetch_one_failure (c : string) (f : failure) (rest : M (dict value) unit)
    (s : Machine (dict value)) :
  failure_of (net (content_request self c)) = Some f ->
  try_except (fetch_one net self c ;; rest) translations_clauses s
  = (inr tt,
     mkMachine (frame s)
       (log s ++ translations_errors f)
       (sent s ++ [content_request self c])).
Proof.
  unfold failure_of. intros H.
  unfold try_except, bind at 1. step_one c.
  destruct (net (content_request self c)) as [e|r].
  - injection H as <-. destruct e; reflexivity.
  - destruct ((400 <=? status_code r) && (status_code r <? 600)) eqn:E.
    + injection H as <-. apply error_status_test in E.
      unfold requests.ok, requests.raise_for_status.
      rewrite http_error_msg_error by exact E. cbn.
      unfold logger_error. cbn. rewrite <- app_assoc. reflexivity.
    + unfold requests.ok. rewrite http_error_msg_none by exact E. cbn.
      unfold requests.json. cbn.
      destruct (body r) as [[ | | | | | |d]|]; cbn in H |- *;
        try (injection H as <-; reflexivity).
      unfold lift. cbn.
      destruct (dict_get d "data"); [discriminate|].
      injection H as <-. reflexivity.
Qed.

(** Every outcome that is not a success is one of the failures. *)
Lemma failure_of_complete (o : Outcome) :
  reply_data o = None -> exists f, failure_of o = Some f.
Proof.
  unfold reply_data, failure_of. destruct o as [e|r]; [eauto|].
  destruct ((400 <=? status_code r) && (status_code r <? 600)); [eauto|].
  destruct (body r) as [[ | | | | | |d]|]; cbn; eauto.
  intros ->. eauto.
Qed.

(** One message for every failure but an error status, which has two. *)
Lemma translations_errors_length (f : failure) :
  List.length (translations_errors f)
  = match f with
    | StatusFailure _ _ _ => 2%nat
    | _ => 1%nat
    end.
Proof. destruct f; reflexivity. Qed.

(** The loop over codes whose requests all succeed. *)
Lemma for_each_fetch_ok (done : list string) (datas : list value)
    (rest : list string) (s : Machine (dict value)) :
  Forall2 (fun c v => reply_data (net (content_request self c)) = Some v)
    done datas ->
  for_each (done ++ rest) (fetch_one net self) s
  = for_each rest (fetch_one net self)
      (mkMachine
         (fold_left (fun d cv => dict_set d (fst cv) (snd cv))
            (combine done datas) (frame s))
         (log s)
         (sent s ++ map (content_request self) done)).
Proof.
  intros H. revert s. induction H as [|c v done datas Hc _ IH]; intros s.
  - cbn. rewrite app_nil_r. destruct s; reflexivity.
  - cbn [app for_each map combine fold_left fst snd]. unfold bind at 1.
    rewrite (fetch_one_ok c v s Hc). rewrite IH. cbn [frame log sent].
    rewrite <- app_assoc. reflexivity.
Qed.

(** Any failed content request ends the loop after that one request. *)
Lemma fetch_one_failed (c : string) (rest : M (dict value) unit)
    (s : Machine (dict value)) :
  reply_data (net (content_request self c)) = None ->
  exists msgs,
    try_except (fetch_one net self c ;; rest) translations_clauses s
    = (inr tt,
       mkMachine (frame s) (log s ++ msgs) (sent s ++ [content_request self c]))
    /\ msgs <> [].
Proof.
  unfold reply_data. intros H.
  unfold try_except, bind at 1. step_one c.
  destruct (net (content_request self c)) as [e|r].
  - destruct e; cbn; eexists; (split; [reflexivity|discriminate]).
  - destruct ((400 <=? status_code r) && (status_code r <? 600)) eqn:E.
    + apply error_status_test in E.
      unfold requests.ok, requests.raise_for_status.
      rewrite http_error_msg_error by exact E. cbn.
      unfold logger_error. cbn. rewrite <- app_assoc.
      eexists; (split; [reflexivity|discriminate]).
    + unfold requests.ok. rewrite http_error_msg_none by exact E. cbn.
      unfold requests.json. cbn.
      destruct (body r) as [[ | | | | | |d]|]; cbn;
        try (eexists; (split; [reflexivity|discriminate])).
      unfold lift. cbn. rewrite H. cbn.
      eexists; (split; [reflexivity|discriminate]).
Qed.

Lemma content_request_not_languages (c : string) :
  content_request self c <> languages_request self.
Proof.
  unfold content_request, languages_request. intros H.
  injection H as H. apply append_inv_head in H. discriminate.
Qed.

End Loop.

(** ** Iteration over the intersection *)

Lemma set_and_nil (set_and : list string -> list string -> list string)
    (b : list string) :
  iteration_order set_and -> set_and [] b = [].
Proof.
  intros H. destruct (H [] b) as [_ Hin].
  destruct (set_and [] b) as [|x l]; [reflexivity|].
  destruct (proj1 (Hin x) (or_introl eq_refl)) as [[] _].
Qed.

Lemma set_and_single (set_and : list string -> list string -> list string)
    (c : string) (b : list string) :
  iteration_order set_and ->
  (In c b -> set_and [c] b = [c]) /\ (~ In c b -> set_and [c] b = []).
Proof.
  intros H. destruct (H [c] b) as [Hnd Hin].
  assert (Hall : forall x, In x (set_and [c] b) -> x = c).
  { intros x Hx. apply Hin in Hx. destruct Hx as [[<-|[]] _]. reflexivity. }
  split; intros Hc.
  - destruct (set_and [c] b) as [|x [|y l]].
    + destruct (proj2 (Hin c) (conj (or_introl eq_refl) Hc)).
    + rewrite (Hall x (or_introl eq_refl)). reflexivity.
    + exfalso. inversion Hnd as [|? ? Hx _]. subst. apply Hx.
      rewrite (Hall x (or_introl eq_refl)),
        (Hall y (or_intror (or_introl eq_refl))).
      left. reflexivity.
  - destruct (set_and [c] b) as [|x l]; [reflexivity|].
    exfalso. apply Hc. rewrite <- (Hall x (or_introl eq_refl)).
    apply (proj1 (Hin x) (or_introl eq_refl)).
Qed.

Lemma sample_set_and_order : iteration_order sample_set_and.
Proof.
  intros a b. unfold sample_set_and. split.
  - apply NoDup_filter, NoDup_nodup.
  - intros x. rewrite filter_In, nodup_In, existsb_exists. split.
    + intros [Ha [y [Hy Heq]]]. apply String.eqb_eq in Heq. subst y. auto.
    + intros [Ha Hb]. split; [exact Ha|]. exists x. split; [exact Hb|].
      apply String.eqb_refl.
Qed.

(** ** fetch_translations *)

Section Translations.

Variable net : Request -> Outcome.
Variable set_and : list string -> list string -> list string.
Variable self : CDSHandler.
Hypothesis order : iteration_order set_and.

Lemma try_except_bind {F A B} (m : M F A) (k : A -> M F B)
    (clauses : list (clause F B)) (a : A) (s s' : Machine F) :
  m s = (inr a, s') ->
  try_except (bind m k) clauses s = try_except (k a) clauses s'.
Proof. intros H. unfold try_except, bind. rewrite H. reflexivity. Qed.

Lemma call_fetch_languages_failed {F} (s : Machine F) :
  reply_data (net (languages_request self)) = None ->
  exists msgs,
    call VNone (fetch_languages net self) s
    = (inr (VList []),
       mkMachine (frame s) (log s ++ msgs) (sent s ++ [languages_request self]))
    /\ msgs <> []
    /\ Forall (fun m => languages_error m = true /\ translations_error m = false) msgs.
Proof.
  intros H. unfold call.
  destruct (fetch_languages_failed net self (mkMachine VNone (log s) (sent s)) H)
    as (msgs & Hrun & Hne & Hall).
  exists msgs. rewrite Hrun. cbn. auto.
Qed.

Lemma call_fetch_languages_ok {F} (v : value) (s : Machine F) :
  reply_data (net (languages_request self)) = Some v ->
  call VNone (fetch_languages net self) s
  = (inr v, mkMachine (frame s) (log s) (sent s ++ [languages_request self])).
Proof.
  intros H. unfold call.
  rewrite (fetch_languages_ok net self v (mkMachine VNone (log s) (sent s)) H).
  reflexivity.
Qed.

Lemma fetch_translations_languages_failed (lc : option string) :
  truthy_str lc = false ->
  reply_data (net (languages_request self)) = None ->
  exists msgs,
    run [] (fetch_translations net set_and self lc)
    = (inr [], mkMachine [] msgs [languages_request self])
    /\ run VNone (fetch_languages net self)
       = (inr (VList []), mkMachine (VList []) msgs [languages_request self])
    /\ msgs <> []
    /\ Forall (fun m => languages_error m = true /\ translations_error m = false) msgs.
Proof.
  intros Hlc H.
  destruct (fetch_languages_failed net self (mkMachine VNone [] []) H)
    as (msgs & Hrun & Hne & Hall).
  exists msgs. repeat split; try assumption.
  unfold run, fetch_translations. rewrite Hlc. cbn [negb].
  unfold bind at 1. cbn [put_local frame log sent].
  unfold bind at 1.
  unfold try_except, bind, call. cbn [frame log sent]. rewrite Hrun. cbn.
  unfold codes_to_fetch. cbn. rewrite (set_and_nil set_and _ order).
  reflexivity.
Qed.

Lemma try_except_ext {F A} (m m' : M F A) (clauses : list (clause F A))
    (s s' : Machine F) :
  m s = m' s' -> try_except m clauses s = try_except m' clauses s'.
Proof. intros H. unfold try_except. rewrite H. reflexivity. Qed.

Lemma bind_ext {F A B} (m m' : M F A) (k : A -> M F B) (s s' : Machine F) :
  m s = m' s' -> bind m k s = bind m' k s'.
Proof. intros H. unfold bind. rewrite H. reflexivity. Qed.

(** The loop when a request fails after the codes [done] were fetched. *)
Lemma loop_failure (done rest : list string) (c : string) (datas : list value)
    (f : failure) (lg : list string) (sn : list Request) :
  Forall2 (fun x v => reply_data (net (content_request self x)) = Some v)
    done datas ->
  failure_of (net (content_request self c)) = Some f ->
  (try_except (for_each (done ++ c :: rest) (fetch_one net self))
     translations_clauses ;; get_local) (mkMachine [] lg sn)
  = (inr (dict_of_pairs (combine done datas)),
     mkMachine (dict_of_pairs (combine done datas))
       (lg ++ translations_errors f)
       (sn ++ map (content_request self) (done ++ [c]))).
Proof.
  intros Hdone Hc. unfold bind at 1.
  rewrite (try_except_ext _ _ _ _ _ (for_each_fetch_ok net self done datas _ _ Hdone)).
  cbn [for_each frame log sent].
  rewrite (fetch_one_failure net self c f _ _ Hc).
  cbn [frame log sent]. unfold get_local. cbn [frame].
  rewrite map_app, app_assoc. reflexivity.
Qed.

(** The loop when every request succeeds. *)
Lemma loop_success (codes : list string) (datas : list value)
    (lg : list string) (sn : list Request) :
  Forall2 (fun x v => reply_data (net (content_request self x)) = Some v)
    codes datas ->
  (try_except (for_each codes (fetch_one net self))
     translations_clauses ;; get_local) (mkMachine [] lg sn)
  = (inr (dict_of_pairs (combine codes datas)),
     mkMachine (dict_of_pairs (combine codes datas)) lg
       (sn ++ map (content_request self) codes)).
Proof.
  intros Hok. unfold bind at 1. unfold try_except.
  rewrite <- (app_nil_r codes) at 1.
  rewrite (for_each_fetch_ok net self codes datas [] _ Hok).
  reflexivity.
Qed.

(** With a language code given, the loop runs over the intersection of the
    code with the configured ones. *)
Lemma fetch_translations_given (c : string) :
  c <> "" ->
  run [] (fetch_translations net set_and self (Some c))
  = (try_except
       (for_each (set_and [c] (configured_language_codes self))
          (fetch_one net self))
       translations_clauses ;; get_local) (mkMachine [] [] []).
Proof.
  intros Hc. unfold run, fetch_translations.
  assert (Ht : truthy_str (Some c) = true).
  { cbn. apply String.eqb_neq in Hc. rewrite Hc. reflexivity. }
  rewrite Ht. cbn [negb value_of_str].
  unfold bind at 1. cbn [put_local frame log sent].
  apply bind_ext.
  erewrite try_except_bind by reflexivity.
  erewrite try_except_bind by reflexivity.
  reflexivity.
Qed.

Lemma codes_of_records (langs : list (dict value)) (names : list string) :
  Forall2 (fun d n => dict_get d "code" = Some (VStr n)) langs names ->
  codes_of (VList (map VDict langs)) = inr (map VStr names).
Proof.
  unfold codes_of. cbn [iterate].
  induction 1 as [|d n langs names Hd _ IH]; [reflexivity|].
  cbn. rewrite Hd, IH. reflexivity.
Qed.

Lemma hash_check_strings (names : list string) :
  comprehension hash_check (map VStr names) = inr (map VStr names).
Proof. induction names as [|n names IH]; cbn; [|rewrite IH]; reflexivity. Qed.

Lemma strings_of_strings (names : list string) :
  strings_of (map VStr names) = names.
Proof. induction names as [|n names IH]; cbn; [|rewrite IH]; reflexivity. Qed.

(** With the languages fetched, the loop runs over the intersection of their
    codes with the configured ones. *)
Lemma fetch_translations_discovered (lc : option string)
    (langs : list (dict value)) (names : list string) :
  truthy_str lc = false ->
  reply_data (net (languages_request self)) = Some (VList (map VDict langs)) ->
  Forall2 (fun d n => dict_get d "code" = Some (VStr n)) langs names ->
  run [] (fetch_translations net set_and self lc)
  = (try_except
       (for_each (set_and names (configured_language_codes self))
          (fetch_one net self))
       translations_clauses ;; get_local)
      (mkMachine [] [] [languages_request self]).
Proof.
  intros Hlc Hdata Hcodes. unfold run, fetch_translations.
  rewrite Hlc. cbn [negb].
  unfold bind at 1. cbn [put_local frame log sent].
  apply bind_ext.
  erewrite try_except_bind.
  2:{ unfold bind. rewrite (call_fetch_languages_ok _ _ Hdata).
      unfold lift. rewrite (codes_of_records _ _ Hcodes). reflexivity. }
  erewrite try_except_bind.
  2:{ unfold lift, codes_to_fetch. rewrite hash_check_strings, strings_of_strings.
      reflexivity. }
  reflexivity.
Qed.

(** *** No request is issued twice

    This is what allows the network to be a function of the request alone. *)

Lemma fetch_languages_sent (s : Machine value) :
  sent (snd (fetch_languages net self s)) = (sent s ++ [languages_request self])%list.
Proof.
  destruct (reply_data (net (languages_request self))) as [v|] eqn:E.
  - rewrite (fetch_languages_ok net self v s E). reflexivity.
  - destruct (fetch_languages_failed net self s E) as (msgs & -> & _).
    reflexivity.
Qed.

Lemma fetch_one_sent (c : string) (s : Machine (dict value)) :
  sent (snd (fetch_one net self c s)) = (sent s ++ [content_request self c])%list.
Proof.
  unfold fetch_one, bind, requests.get, requests.send,
    FETCH_TRANSLATIONS_FOR_LANGUAGE.
  cbn. fold (content_request self c).
  destruct (net (content_request self c)) as [e|r]; [reflexivity|].
  unfold requests.ok, requests.raise_for_status, requests.json.
  destruct (requests.http_error_msg _); cbn; [reflexivity|].
  destruct (body r) as [j|]; cbn; [|reflexivity].
  unfold lift. destruct (subscript j "data"); reflexivity.
Qed.

Lemma for_each_sent (codes : list string) (s : Machine (dict value)) :
  exists n,
    sent (snd (for_each codes (fetch_one net self) s))
    = (sent s ++ map (content_request self) (firstn n codes))%list.
Proof.
  revert s. induction codes as [|c codes IH]; intros s.
  - exists 0%nat. cbn. rewrite app_nil_r. reflexivity.
  - cbn [for_each]. unfold bind.
    pose proof (fetch_one_sent c s) as Hone.
    destruct (fetch_one net self c s) as [[e|[]] s1]; cbn [snd] in *.
    + exists 1%nat. cbn. exact Hone.
    + destruct (IH s1) as [n Hn]. exists (S n). rewrite Hn, Hone.
      cbn. rewrite <- app_assoc. reflexivity.
Qed.

Lemma content_request_inj (c c' : string) :
  content_request self c = content_request self c' -> c = c'.
Proof.
  unfold content_request. intros H. injection H as H.
  apply append_inv_head in H. apply append_inv_head in H. exact H.
Qed.

Lemma NoDup_firstn {A} (n : nat) (l : list A) : NoDup l -> NoDup (firstn n l).
Proof.
  intros H. rewrite <- (firstn_skipn n l) in H.
  exact (NoDup_app_remove_r _ _ H).
Qed.

Lemma content_requests_NoDup (first : list Request) (n : nat) (codes : list string) :
  first = [] \/ first = [languages_request self] ->
  NoDup codes ->
  NoDup (first ++ map (content_request self) (firstn n codes)).
Proof.
  intros Hfirst Hnd.
  assert (Hmap : NoDup (map (content_request self) (firstn n codes))).
  { apply Injective_map_NoDup; [|apply NoDup_firstn, Hnd].
    intros c c'. apply content_request_inj. }
  destruct Hfirst as [->| ->]; [exact Hmap|].
  cbn. constructor; [|exact Hmap].
  intros Hin. apply in_map_iff in Hin. destruct Hin as (c & Hc & _).
  exact (content_request_not_languages self c Hc).
Qed.

(** The requests of one call of [fetch_translations] are all different. *)
Lemma fetch_translations_requests_NoDup (lc : option string) :
  NoDup (sent (snd (run [] (fetch_translations net set_and self lc)))).
Proof.
  unfold run, fetch_translations.
  unfold bind at 1. cbn [put_local frame log sent].
  unfold bind at 1. unfold try_except.
  set (s0 := mkMachine (@nil (string * value)) [] []).
  assert (Hbody : forall languages first (s : Machine (dict value)),
            sent s = first ->
            first = [] \/ first = [languages_request self] ->
            NoDup (sent (snd ((codes <- lift (codes_to_fetch set_and self languages) ;;
                               for_each codes (fetch_one net self)) s)))).
  { intros languages first s Hs Hfirst. unfold bind, lift, codes_to_fetch.
    destruct (comprehension hash_check languages) as [e|hashed]; cbn [snd].
    - rewrite Hs. destruct Hfirst as [->| ->]; repeat constructor. intros [].
    - destruct (for_each_sent
                  (set_and (strings_of hashed) (configured_language_codes self)) s)
        as [n Hn].
      rewrite Hn, Hs. apply content_requests_NoDup; [exact Hfirst|].
      apply (order _ _). }
  match goal with
  | |- context [match ?body s0 with _ => _ end] =>
      assert (Hnd : NoDup (sent (snd (body s0))));
      [|destruct (body s0) as [[e|[]] s1]; cbn [snd] in Hnd]
  end.
  - unfold bind at 1.
    destruct (truthy_str lc); cbn [negb].
    + unfold ret. apply (Hbody _ [] s0 eq_refl). left. reflexivity.
    + unfold bind at 1. unfold call. cbn [frame log sent s0].
      pose proof (fetch_languages_sent (mkMachine VNone [] [])) as Hl.
      destruct (fetch_languages net self (mkMachine VNone [] [])) as [r s1].
      cbn [snd] in Hl. cbn [app] in Hl.
      destruct r as [e|fetched].
      * cbn. rewrite Hl. repeat constructor. intros [].
      * unfold lift at 1. destruct (codes_of fetched) as [e|languages].
        -- cbn. rewrite Hl. repeat constructor. intros [].
        -- apply (Hbody _ [languages_request self]); [exact Hl|].
           right. reflexivity.
  - destruct e; exact Hnd.
  - exact Hnd.
Qed.

End Translations.

(** ** Dictionaries *)

Section Dicts.

Context {A : Type}.
Implicit Types (d : dict A) (k : string) (v : A).

Lemma dict_get_set_same d k v : dict_get (dict_set d k v) k = Some v.
Proof.
  induction d as [|[k' v'] d IH]; cbn.
  - rewrite String.eqb_refl. reflexivity.
  - destruct (String.eqb k k') eqn:E; cbn; rewrite E; [reflexivity|exact IH].
Qed.

Lemma dict_get_set_other d k k' v :
  k' <> k -> dict_get (dict_set d k v) k' = dict_get d k'.
Proof.
  intros Hne. induction d as [|[k0 v0] d IH]; cbn.
  - apply String.eqb_neq in Hne. rewrite Hne. reflexivity.
  - destruct (String.eqb k k0) eqn:E; cbn.
    + apply String.eqb_eq in E. subst k0.
      apply String.eqb_neq in Hne. rewrite Hne. reflexivity.
    + rewrite IH. reflexivity.
Qed.

Lemma keys_dict_set_in d k v : In k (keys d) -> keys (dict_set d k v) = keys d.
Proof.
  induction d as [|[k' v'] d IH]; cbn; [intros []|].
  intros Hin. destruct (String.eqb k k') eqn:E; cbn; [reflexivity|].
  f_equal. apply IH. destruct Hin as [->|Hin]; [|exact Hin].
  rewrite String.eqb_refl in E. discriminate.
Qed.

Lemma keys_dict_set_new d k v :
  ~ In k (keys d) -> keys (dict_set d k v) = (keys d ++ [k])%list.
Proof.
  induction d as [|[k' v'] d IH]; cbn; [reflexivity|].
  intros Hnin. destruct (String.eqb k k') eqn:E.
  - apply String.eqb_eq in E. subst k'. exfalso. apply Hnin. left. reflexivity.
  - cbn. f_equal. apply IH. intros Hin. apply Hnin. right. exact Hin.
Qed.

Lemma keys_dict_set_NoDup d k v : NoDup (keys d) -> NoDup (keys (dict_set d k v)).
Proof.
  intros Hnd. destruct (in_dec string_dec k (keys d)) as [Hin|Hnin].
  - rewrite keys_dict_set_in by exact Hin. exact Hnd.
  - rewrite keys_dict_set_new by exact Hnin.
    apply NoDup_app; [exact Hnd|repeat constructor; intros []|].
    intros x Hx [<-|[]]. exact (Hnin Hx).
Qed.

Lemma fold_dict_set_NoDup (pairs : list (string * A)) d :
  NoDup (keys d) ->
  NoDup (keys (fold_left (fun d kv => dict_set d (fst kv) (snd kv)) pairs d)).
Proof.
  revert d. induction pairs as [|[k v] pairs IH]; intros d Hnd; cbn; [exact Hnd|].
  apply IH, keys_dict_set_NoDup, Hnd.
Qed.

Lemma fold_dict_set_get_absent (pairs : list (string * A)) d k :
  ~ In k (map fst pairs) ->
  dict_get (fold_left (fun d kv => dict_set d (fst kv) (snd kv)) pairs d) k
  = dict_get d k.
Proof.
  revert d. induction pairs as [|[k' v'] pairs IH]; intros d Hnin; cbn;
    [reflexivity|].
  rewrite IH by (intros Hin; apply Hnin; right; exact Hin).
  apply dict_get_set_other. intros ->. apply Hnin. left. reflexivity.
Qed.

(** A dict built from pairs has each key once. *)
Lemma dict_of_pairs_NoDup (pairs : list (string * A)) :
  NoDup (keys (dict_of_pairs pairs)).
Proof. apply fold_dict_set_NoDup. constructor. Qed.

(** A key holds the value of the last pair that has it. *)
Lemma dict_of_pairs_last (before after : list (string * A)) k v :
  ~ In k (map fst after) ->
  dict_get (dict_of_pairs (before ++ (k, v) :: after)) k = Some v.
Proof.
  intros Hnin. unfold dict_of_pairs. rewrite fold_left_app. cbn.
  rewrite fold_dict_set_get_absent by exact Hnin.
  apply dict_get_set_same.
Qed.

Lemma dict_get_keys d k v : dict_get d k = Some v -> In k (keys d).
Proof.
  induction d as [|[k' v'] d IH]; cbn; [discriminate|].
  destruct (String.eqb k k') eqn:E.
  - apply String.eqb_eq in E. left. symmetry. exact E.
  - intros H. right. apply IH, H.
Qed.

Lemma NoDup_count_one (l : list string) k :
  NoDup l -> In k l -> count_occ string_dec l k = 1%nat.
Proof.
  intros Hnd Hin.
  apply (proj1 (NoDup_count_occ string_dec l)) with (x := k) in Hnd.
  apply (proj1 (count_occ_In string_dec l k)) in Hin. lia.
Qed.

End Dicts.

(** ** push_source_strings *)

Section Push.

Variable net : Request -> Outcome.
Variables k1 k2 k3 : string.
Variable self : CDSHandler.

Lemma distinct_keys_neq :
  distinct_keys k1 k2 k3 -> k2 <> k1 /\ k3 <> k1 /\ k3 <> k2.
Proof.
  unfold distinct_keys. intros Hnd.
  inversion Hnd as [|? ? Hx1 Hnd']. inversion Hnd' as [|? ? Hx2 _]. subst.
  repeat split; intros ->.
  - apply Hx1. left. reflexivity.
  - apply Hx1. right. left. reflexivity.
  - apply Hx2. left. reflexivity.
Qed.

Lemma MAPPING_get_rename (k : string) :
  distinct_keys k1 k2 k3 -> MAPPING_get k1 k2 k3 k = rename k1 k2 k3 k.
Proof.
  intros Hnd. destruct (distinct_keys_neq Hnd) as (H12 & H13 & H23).
  apply String.eqb_neq in H12, H13, H23.
  unfold MAPPING_get, MAPPING, dict_of_pairs, rename. cbn.
  rewrite H12. cbn. rewrite H13, H23. cbn.
  destruct (String.eqb k k1); [reflexivity|].
  destruct (String.eqb k k2); [reflexivity|].
  destruct (String.eqb k k3); reflexivity.
Qed.

(** A dict built from pairs is the mapping assembled from them. *)
Lemma fold_dict_set_lookup_last {A} (pairs : list (string * A)) (d : dict A)
    (k : string) :
  dict_get (fold_left (fun d kv => dict_set d (fst kv) (snd kv)) pairs d) k
  = match lookup_last pairs k with
    | Some v => Some v
    | None => dict_get d k
    end.
Proof.
  revert d. induction pairs as [|[k' v'] pairs IH]; intros d;
    cbn [fold_left lookup_last fst snd]; [reflexivity|].
  rewrite IH. destruct (lookup_last pairs k); [reflexivity|].
  destruct (String.eqb k k') eqn:E.
  - apply String.eqb_eq in E. subst k'. apply dict_get_set_same.
  - apply String.eqb_neq in E. apply dict_get_set_other. exact E.
Qed.

Lemma dict_of_pairs_mapping {A} (pairs : list (string * A)) :
  mapping_of (dict_of_pairs pairs) pairs.
Proof.
  split; [apply dict_of_pairs_NoDup|].
  intros k. unfold dict_of_pairs. rewrite fold_dict_set_lookup_last.
  destruct (lookup_last pairs k); reflexivity.
Qed.

(** [_serialize] follows the serialization rule. *)
Lemma _serialize_rule (s : SourceString) :
  distinct_keys k1 k2 k3 ->
  exists meta,
    _serialize k1 k2 k3 s
    = (ss_key s, VDict [("string", VStr (ss_string s)); ("meta", VDict meta)])
    /\ NoDup (keys meta)
    /\ forall k, dict_get meta k = spec_meta_lookup k1 k2 k3 s k.
Proof.
  intros Hnd. unfold _serialize, spec_meta_lookup.
  assert (E : map (fun kv => (MAPPING_get k1 k2 k3 (fst kv), snd kv)) (ss_meta s)
              = map (fun kv => (rename k1 k2 k3 (fst kv), snd kv)) (ss_meta s)).
  { apply map_ext. intros kv. rewrite MAPPING_get_rename by exact Hnd.
    reflexivity. }
  rewrite E.
  set (renamed := map (fun kv => (rename k1 k2 k3 (fst kv), snd kv)) (ss_meta s)).
  destruct (dict_of_pairs_mapping renamed) as [Hkeys Hget].
  eexists. split; [reflexivity|].
  destruct (truthy (ss_context s)); cbn [andb].
  - split; [apply keys_dict_set_NoDup, Hkeys|].
    intros k. destruct (String.eqb k "context") eqn:Ek.
    + apply String.eqb_eq in Ek. subst k. apply dict_get_set_same.
    + apply String.eqb_neq in Ek. rewrite dict_get_set_other by exact Ek.
      apply Hget.
  - split; [exact Hkeys|exact Hget].
Qed.

(** What a call of [push_source_strings] with a secret does, by the outcome
    of its request. *)
Lemma push_run (strings : list SourceString) (purge : bool) (sec : string) :
  secret self = Some sec -> sec <> "" ->
  let rq := push_request self sec (posted_body k1 k2 k3 strings purge) in
  run None (push_source_strings net k1 k2 k3 self strings purge)
  = match net rq with
    | Raises e =>
        (inl (UnboundLocalError
                "cannot access local variable 'response' where it is not associated with a value"),
         mkMachine None
           [if is_ConnectionError e
            then "Error pushing source strings to CDS: ConnectionError"
            else "Error pushing source strings to CDS: UnknownError (`"
                   ++ str e ++ "`)"]
           [rq])
    | Replies r =>
        let response := mkResponse (final_url r) r in
        (inr response,
         mkMachine (Some response)
           match requests.http_error_msg response with
           | Some text =>
               ["Error pushing source strings to CDS: UnknownError (`"
                  ++ text ++ "`)"]
           | None => []
           end
           [rq])
    end.
Proof.
  intros Hsec Hne rq.
  unfold run, push_source_strings. rewrite Hsec.
  cbn [truthy_str format_str]. apply String.eqb_neq in Hne. rewrite Hne.
  cbn [negb].
  unfold bind, try_except, requests.post, requests.send, PUSH_SOURCE_STRINGS.
  cbn.
  fold (posted_body k1 k2 k3 strings purge).
  fold (push_request self sec (posted_body k1 k2 k3 strings purge)). fold rq.
  destruct (net rq) as [e|r].
  - destruct e; reflexivity.
  - unfold requests.raise_for_status.
    destruct (requests.http_error_msg _); reflexivity.
Qed.

(** When the request raises instead of being answered, the handler logs and
    [return response] then finds [response] unbound. *)
Lemma push_unanswered (strings : list SourceString) (purge : bool) (sec : string)
    (e : exn) :
  secret self = Some sec -> sec <> "" ->
  let rq := push_request self sec (posted_body k1 k2 k3 strings purge) in
  net rq = Raises e ->
  run None (push_source_strings net k1 k2 k3 self strings purge)
  = (inl (UnboundLocalError
            "cannot access local variable 'response' where it is not associated with a value"),
     mkMachine None
       [if is_ConnectionError e
        then "Error pushing source strings to CDS: ConnectionError"
        else "Error pushing source strings to CDS: UnknownError (`"
               ++ str e ++ "`)"]
       [rq]).
Proof.
  intros Hsec Hne rq Hnet.
  rewrite (push_run strings purge sec Hsec Hne). fold rq. rewrite Hnet.
  reflexivity.
Qed.

End Push.

(** * The read operations *)

Section FetchLanguages.

Variable net : Request -> Outcome.
Variable self : CDSHandler.

(** C8. When [/languages] answers 200 with a JSON object that has a [data]
    key, [fetch_languages] returns the value under [data], as it is, and
    logs nothing; one request was issued. *)
Theorem fetch_languages_returns_data (r : Reply) (d : dict value) (v : value) :
  net (languages_request self) = Replies r ->
  status_code r = 200 ->
  body r = Some (VDict d) ->
  dict_get d "data" = Some v ->
  run VNone (fetch_languages net self)
  = (inr v, mkMachine v [] [languages_request self]).
Proof.
  intros Hnet Hstatus Hbody Hdata. unfold run.
  apply fetch_languages_ok. unfold reply_data.
  rewrite Hnet, Hstatus, Hbody. exact Hdata.
Qed.

(** C7, amended. When [/languages] answers with an error status (400 to
    599), [fetch_languages] returns the empty list and logs two messages:
    the reason phrase, then the UnknownError message whose detail is the
    text of the HTTP error. The detail holds the status code and the URL
    the library reports for the response; that is the URL of the request
    whenever the library reports it unchanged. *)
Theorem fetch_languages_error_status_logged (r : Reply) :
  net (languages_request self) = Replies r ->
  error_status (status_code r) ->
  let detail := http_error_text (status_code r) (reason r) (final_url r) in
  run VNone (fetch_languages net self)
  = (inr (VList []),
     mkMachine (VList [])
       ["Error retrieving languages from CDS: `" ++ reason r ++ "`";
        "Error retrieving languages from CDS: UnknownError (`" ++ detail ++ "`)"]
       [languages_request self])
  /\ contains (format_int (status_code r)) detail
  /\ contains (final_url r) detail
  /\ (final_url r = req_url (languages_request self) ->
      contains (host self ++ "/languages") detail).
Proof.
  intros Hnet Herr detail.
  assert (Hurl : contains (final_url r) detail).
  { exists (format_int (status_code r)
            ++ (if status_code r <? 500 then " Client Error: " else " Server Error: ")
            ++ reason r ++ " for url: "), "".
    unfold detail, http_error_text.
    rewrite append_nil_r, !append_assoc. reflexivity. }
  split; [|split; [|split]].
  - unfold run. rewrite (fetch_languages_error_status net self r _ Hnet Herr).
    reflexivity.
  - exists "". eexists. unfold detail, http_error_text. reflexivity.
  - exact Hurl.
  - intros Heq. rewrite Heq in Hurl. exact Hurl.
Qed.

End FetchLanguages.

Section FetchTranslations.

Variable net : Request -> Outcome.
Variable set_and : list string -> list string -> list string.
Variable self : CDSHandler.

(** C6. The read operations end without an exception, whatever the network
    does: [fetch_languages] returns the [data] of a successful exchange and
    the empty list after any failure, and [fetch_translations] returns a
    mapping. *)
Theorem reads_never_raise (lc : option string) :
  fst (run VNone (fetch_languages net self))
  = inr match reply_data (net (languages_request self)) with
        | Some v => v
        | None => VList []
        end
  /\ exists translations : dict value,
       fst (run [] (fetch_translations net set_and self lc)) = inr translations.
Proof.
  split.
  - unfold run. destruct (reply_data (net (languages_request self))) as [v|] eqn:E.
    + rewrite (fetch_languages_ok net self v _ E). reflexivity.
    + destruct (fetch_languages_failed net self (mkMachine VNone [] []) E)
        as (msgs & -> & _). reflexivity.
  - unfold run, fetch_translations.
    unfold bind at 1. cbn [put_local frame log sent].
    unfold bind at 1. unfold try_except.
    match goal with
    | |- context [match ?body ?s with _ => _ end] =>
        destruct (body s) as [[e|[]] s']
    end.
    + destruct e; cbn; eauto.
    + cbn. eauto.
Qed.

(** C3. When no language code is given and [fetch_languages] fails, in
    whatever way, [fetch_translations] returns the empty mapping, the only
    request issued is the one for [/languages], and the messages logged are
    those of [fetch_languages]: there is at least one, each one starts with
    [Error retrieving languages from CDS] and none is a message about
    translations. *)
Theorem languages_failure_short_circuits (lc : option string) :
  iteration_order set_and ->
  truthy_str lc = false ->
  reply_data (net (languages_request self)) = None ->
  exists msgs,
    run [] (fetch_translations net set_and self lc)
    = (inr [], mkMachine [] msgs [languages_request self])
    /\ log (snd (run VNone (fetch_languages net self))) = msgs
    /\ msgs <> []
    /\ Forall (fun m => languages_error m = true /\ translations_error m = false)
         msgs.
Proof.
  intros Horder Hlc Hfail.
  destruct (fetch_translations_languages_failed net set_and self Horder lc Hlc Hfail)
    as (msgs & Hrun & Hlang & Hne & Hall).
  exists msgs. rewrite Hrun, Hlang. auto.
Qed.

(** C4, amended. When the language list is known and the content request of
    a language [c] fails, in whatever way (the request raises, the reply has
    an error status 400 to 599, or the body is not a JSON object with
    [data]), after the languages [done] were fetched, no request is issued
    for the languages after [c] and the mapping of [done] to their data is
    returned. The messages logged are those of the failure: exactly one, of
    the three-way classification, except for an error status, which logs
    two, the reason phrase and then the UnknownError message with the text
    of the HTTP error. *)
Theorem content_failure_aborts_loop (lc : option string)
    (names : list string) (first : list Request)
    (done rest : list string) (c : string) (datas : list value) :
  languages_known net self lc names first ->
  set_and names (configured_language_codes self) = (done ++ c :: rest)%list ->
  Forall2 (fun x v => reply_data (net (content_request self x)) = Some v)
    done datas ->
  reply_data (net (content_request self c)) = None ->
  exists f,
    failure_of (net (content_request self c)) = Some f
    /\ run [] (fetch_translations net set_and self lc)
       = (inr (dict_of_pairs (combine done datas)),
          mkMachine (dict_of_pairs (combine done datas))
            (translations_errors f)
            (first ++ map (content_request self) (done ++ [c])))
    /\ List.length (log (snd (run [] (fetch_translations net set_and self lc))))
       = match f with
         | StatusFailure _ _ _ => 2%nat
         | _ => 1%nat
         end.
Proof.
  intros Hknown Hcodes Hdone Hnone.
  destruct (failure_of_complete _ Hnone) as [f Hfail]. exists f.
  assert (Hrun : run [] (fetch_translations net set_and self lc)
                 = (inr (dict_of_pairs (combine done datas)),
                    mkMachine (dict_of_pairs (combine done datas))
                      (translations_errors f)
                      (first ++ map (content_request self) (done ++ [c])))).
  { destruct Hknown as [c0 Hc0|lc langs names Hlc Hdata Hrecords].
    - rewrite (fetch_translations_given net set_and self c0 Hc0), Hcodes.
      apply (loop_failure net self done rest c datas f [] [] Hdone Hfail).
    - rewrite (fetch_translations_discovered net set_and self lc langs names
                 Hlc Hdata Hrecords), Hcodes.
      apply (loop_failure net self done rest c datas f [] _ Hdone Hfail). }
  split; [exact Hfail|]. split; [exact Hrun|].
  rewrite Hrun. cbn [snd log]. apply translations_errors_length.
Qed.

(** C5, amended. With a non-empty language code given, no request for
    [/languages] is issued. If the code is configured, the only request is
    the content request of that code, and when it succeeds the result maps
    the code to the [data] of the reply and nothing is logged. If the code
    is not configured, no request is issued and the result is empty. *)
Theorem given_language_code_is_used (c : string) :
  iteration_order set_and ->
  c <> "" ->
  let outcome := run [] (fetch_translations net set_and self (Some c)) in
  ~ In (languages_request self) (sent (snd outcome))
  /\ (In c (configured_language_codes self) ->
      sent (snd outcome) = [content_request self c]
      /\ forall v, reply_data (net (content_request self c)) = Some v ->
                   fst outcome = inr [(c, v)] /\ log (snd outcome) = [])
  /\ (~ In c (configured_language_codes self) ->
      outcome = (inr [], mkMachine [] [] [])).
Proof.
  intros Horder Hc outcome.
  destruct (set_and_single set_and c (configured_language_codes self) Horder)
    as [Hin Hout].
  assert (Hcfg : In c (configured_language_codes self) ->
            sent (snd outcome) = [content_request self c]
            /\ forall v, reply_data (net (content_request self c)) = Some v ->
                         fst outcome = inr [(c, v)] /\ log (snd outcome) = []).
  { intros Hc'. unfold outcome.
    rewrite (fetch_translations_given net set_and self c Hc), (Hin Hc').
    destruct (reply_data (net (content_request self c))) as [v|] eqn:E.
    - assert (Hok : Forall2
                (fun x v => reply_data (net (content_request self x)) = Some v)
                [c] [v]) by (repeat constructor; exact E).
      rewrite (loop_success net self [c] [v] [] [] Hok). cbn. split; [reflexivity|].
      intros v' Hv'. injection Hv' as <-.
      unfold dict_of_pairs. cbn. auto.
    - cbn [for_each]. unfold bind at 1.
      destruct (fetch_one_failed net self c (ret tt) (mkMachine [] [] []) E)
        as (msgs & Hrun & _).
      rewrite Hrun. cbn. split; [reflexivity|]. discriminate. }
  assert (Hnot : ~ In c (configured_language_codes self) ->
            outcome = (inr [], mkMachine [] [] [])).
  { intros Hc'. unfold outcome.
    rewrite (fetch_translations_given net set_and self c Hc), (Hout Hc').
    reflexivity. }
  split; [|split; assumption].
  destruct (in_dec string_dec c (configured_language_codes self)) as [Hc'|Hc'].
  - rewrite (proj1 (Hcfg Hc')). intros [H|[]].
    exact (content_request_not_languages self c H).
  - rewrite (Hnot Hc'). intros [].
Qed.

End FetchTranslations.

(** * push_source_strings *)

Section PushSourceStrings.

Variable net : Request -> Outcome.
Variables k1 k2 k3 : string.
Variable self : CDSHandler.

(** C2, amended. On a handler without a secret ([None] or the empty
    string), [push_source_strings] raises an exception whose message is
    [You need to use `TRANSIFEX_SECRET` when pushing source content]; no
    request is issued and nothing is logged. *)
Theorem push_without_secret_raises (strings : list SourceString) (purge : bool) :
  truthy_str (secret self) = false ->
  run None (push_source_strings net k1 k2 k3 self strings purge)
  = (inl (PyException
            "You need to use `TRANSIFEX_SECRET` when pushing source content"),
     mkMachine None [] []).
Proof.
  intros Hsec. unfold run, push_source_strings. rewrite Hsec. reflexivity.
Qed.

(** C1, amended. On a handler with a secret, when the POST is answered,
    [push_source_strings] returns the response whatever its status. For an
    error status (400 to 599) it logs the UnknownError message with the text
    of the HTTP error, which names the URL the library reports for the
    response; for any other status it logs nothing. *)
Theorem push_returns_response (strings : list SourceString) (purge : bool)
    (sec : string) (r : Reply) :
  secret self = Some sec -> sec <> "" ->
  let rq := push_request self sec (posted_body k1 k2 k3 strings purge) in
  let response := mkResponse (final_url r) r in
  net rq = Replies r ->
  run None (push_source_strings net k1 k2 k3 self strings purge)
  = (inr response,
     mkMachine (Some response)
       (if (400 <=? status_code r) && (status_code r <? 600)
        then ["Error pushing source strings to CDS: UnknownError (`"
                ++ http_error_text (status_code r) (reason r) (final_url r)
                ++ "`)"]
        else [])
       [rq]).
Proof.
  intros Hsec Hne rq response Hnet.
  rewrite (push_run net k1 k2 k3 self strings purge sec Hsec Hne).
  fold rq. rewrite Hnet. cbn zeta. fold response.
  destruct ((400 <=? status_code r) && (status_code r <? 600)) eqn:E.
  - apply error_status_test in E.
    rewrite (http_error_msg_error response E). reflexivity.
  - rewrite (http_error_msg_none response E). reflexivity.
Qed.

(** C9. On a handler with a secret, [push_source_strings] issues one
    request: a POST to [<host>/content/] with the credential
    [Bearer <token>:<secret>] and the body
    [{"data": <mapping>, "meta": {"purge": <flag>}}]. Each source string is
    serialized to the pair of its key and the record
    [{"string": ..., "meta": ...}], whose [meta] is a mapping that holds the
    metadata values under their keys, the three known keys renamed and every
    other key kept, and the context under [context] when it is not empty.
    [data] is the mapping assembled from these pairs: each key once, with
    the record of the last string that has it. For the empty list and
    [purge] false the body is [{"data": {}, "meta": {"purge": False}}]. *)
Theorem push_posts_serialized_strings (strings : list SourceString)
    (purge : bool) (sec : string) :
  distinct_keys k1 k2 k3 ->
  secret self = Some sec -> sec <> "" ->
  (MAPPING_get k1 k2 k3 k1 = "developer_comment"
   /\ MAPPING_get k1 k2 k3 k2 = "character_limit"
   /\ MAPPING_get k1 k2 k3 k3 = "tags"
   /\ forall k, k <> k1 -> k <> k2 -> k <> k3 -> MAPPING_get k1 k2 k3 k = k)
  /\ (forall s,
        exists meta,
          _serialize k1 k2 k3 s
          = (ss_key s,
             VDict [("string", VStr (ss_string s)); ("meta", VDict meta)])
          /\ NoDup (keys meta)
          /\ forall k, dict_get meta k = spec_meta_lookup k1 k2 k3 s k)
  /\ (exists data,
        sent (snd (run None (push_source_strings net k1 k2 k3 self strings purge)))
        = [mkRequest POST (host self ++ "/content/")
             [("Authorization", "Bearer " ++ token self ++ ":" ++ sec)]
             (Some (VDict [("data", VDict data);
                           ("meta", VDict [("purge", VBool purge)])]))]
        /\ mapping_of data (map (_serialize k1 k2 k3) strings))
  /\ sent (snd (run None (push_source_strings net k1 k2 k3 self [] false)))
     = [mkRequest POST (host self ++ "/content/")
          [("Authorization", "Bearer " ++ token self ++ ":" ++ sec)]
          (Some (VDict [("data", VDict []);
                        ("meta", VDict [("purge", VBool false)])]))].
Proof.
  intros Hkeys Hsec Hne. split; [|split; [|split]].
  - rewrite !(MAPPING_get_rename k1 k2 k3 _ Hkeys). unfold rename.
    destruct (distinct_keys_neq k1 k2 k3 Hkeys) as (H12 & H13 & H23).
    rewrite !String.eqb_refl.
    apply String.eqb_neq in H12, H13, H23. rewrite H12, H13, H23.
    repeat split. intros k Hk1 Hk2 Hk3.
    rewrite (MAPPING_get_rename k1 k2 k3 _ Hkeys). unfold rename.
    apply String.eqb_neq in Hk1, Hk2, Hk3. rewrite Hk1, Hk2, Hk3. reflexivity.
  - intros s. apply _serialize_rule, Hkeys.
  - exists (dict_of_pairs (map (_serialize k1 k2 k3) strings)). split.
    + rewrite (push_run net k1 k2 k3 self strings purge sec Hsec Hne).
      cbn zeta. destruct (net _); reflexivity.
    + apply dict_of_pairs_mapping.
  - rewrite (push_run net k1 k2 k3 self [] false sec Hsec Hne).
    cbn zeta. destruct (net _); reflexivity.
Qed.

(** C10. When two entries of the list have the same key and no later entry
    has it, the [data] mapping of the posted body has that key once, with
    the serialized record of the later of the two entries. *)
Theorem push_keeps_last_of_equal_keys (strings before between after : list SourceString)
    (a b : SourceString) (purge : bool) (sec : string) :
  secret self = Some sec -> sec <> "" ->
  strings = (before ++ a :: between ++ b :: after)%list ->
  ss_key a = ss_key b ->
  (forall s, In s after -> ss_key s <> ss_key b) ->
  exists data,
    map req_json
      (sent (snd (run None (push_source_strings net k1 k2 k3 self strings purge))))
    = [Some (VDict [("data", VDict data);
                    ("meta", VDict [("purge", VBool purge)])])]
    /\ count_occ string_dec (keys data) (ss_key b) = 1%nat
    /\ dict_get data (ss_key b) = Some (snd (_serialize k1 k2 k3 b)).
Proof.
  intros Hsec Hne Hstrings Hkey Hafter.
  exists (dict_of_pairs (map (_serialize k1 k2 k3) strings)).
  assert (Hget : dict_get (dict_of_pairs (map (_serialize k1 k2 k3) strings))
                   (ss_key b)
                 = Some (snd (_serialize k1 k2 k3 b))).
  { rewrite Hstrings.
    replace (before ++ a :: between ++ b :: after)%list
      with ((before ++ a :: between) ++ b :: after)%list
      by (rewrite <- app_assoc; reflexivity).
    rewrite map_app. cbn [map].
    replace (_serialize k1 k2 k3 b)
      with (ss_key b, snd (_serialize k1 k2 k3 b)) at 1 by reflexivity.
    apply dict_of_pairs_last. rewrite map_map. cbn [_serialize fst].
    intros Hin. apply in_map_iff in Hin. destruct Hin as (s & Hs & Hin).
    exact (Hafter s Hin Hs). }
  split; [|split].
  - rewrite (push_run net k1 k2 k3 self strings purge sec Hsec Hne).
    cbn zeta. destruct (net _); reflexivity.
  - apply NoDup_count_one.
    + apply dict_of_pairs_NoDup.
    + apply dict_get_keys with (v := snd (_serialize k1 k2 k3 b)). exact Hget.
  - exact Hget.
Qed.

End PushSourceStrings.

(** * Further properties of fetch_languages *)

(** Runs [fetch_languages] up to the outcome of its request. *)
Ltac run_languages self :=
  unfold run, fetch_languages, bind, try_except, requests.get, requests.send,
    put_local, FETCH_AVAILABLE_LANGUAGES;
  cbn;
  fold (languages_request self).

(** The test of the status fails when the status is no error status. *)
Lemma not_error_status_test (c : Z) :
  ~ error_status c -> (400 <=? c) && (c <? 600) = false.
Proof.
  intros H. destruct ((400 <=? c) && (c <? 600)) eqn:E; [|reflexivity].
  apply error_status_test in E. contradiction.
Qed.

Section MoreFetchLanguages.

Variable net : Request -> Outcome.
Variable self : CDSHandler.

(** X1. Whatever the network does, one call of [fetch_languages] issues
    exactly one request: the GET of [<host>/languages] with the bearer
    token and no body. *)
Theorem fetch_languages_one_request :
  sent (snd (run VNone (fetch_languages net self)))
  = [mkRequest GET (host self ++ "/languages")
       [("Authorization", "Bearer " ++ token self)] None].
Proof.
  unfold run. rewrite (fetch_languages_sent net self). reflexivity.
Qed.

(** X2. [fetch_languages] logs nothing exactly when the exchange succeeds,
    that is when the reply has no error status and its body is a JSON
    object with a [data] key. *)
Theorem fetch_languages_silent_iff_success :
  log (snd (run VNone (fetch_languages net self))) = []
  <-> exists v, reply_data (net (languages_request self)) = Some v.
Proof.
  unfold run. split.
  - intros Hlog.
    destruct (reply_data (net (languages_request self))) as [v|] eqn:E;
      [eauto|].
    destruct (fetch_languages_failed net self (mkMachine VNone [] []) E)
      as (msgs & Hrun & Hne & _).
    rewrite Hrun in Hlog. cbn in Hlog. contradiction.
  - intros [v Hv]. rewrite (fetch_languages_ok net self v _ Hv). reflexivity.
Qed.

(** X3. When the reply has no error status and its body is not JSON, or is
    a JSON object without a [data] key, [fetch_languages] returns the empty
    list and logs the one message [Malformed response]. *)
Theorem fetch_languages_malformed (r : Reply) :
  net (languages_request self) = Replies r ->
  ~ error_status (status_code r) ->
  body r = None
  \/ (exists d, body r = Some (VDict d) /\ dict_get d "data" = None) ->
  run VNone (fetch_languages net self)
  = (inr (VList []),
     mkMachine (VList [])
       ["Error retrieving languages from CDS: Malformed response"]
       [languages_request self]).
Proof.
  intros Hnet Hstatus Hbody.
  pose proof (not_error_status_test _ Hstatus) as E.
  run_languages self. rewrite Hnet.
  unfold requests.ok. rewrite http_error_msg_none by exact E. cbn.
  unfold requests.json. cbn.
  destruct Hbody as [Hb|(d & Hb & Hd)]; rewrite Hb; cbn; [reflexivity|].
  unfold lift. cbn. rewrite Hd. reflexivity.
Qed.

(** X4. When the request raises, [fetch_languages] returns the empty list
    and logs one message, chosen by the class of the exception:
    [Malformed response] for a [KeyError] or [ValueError],
    [ConnectionError] for a connection error, and [UnknownError] with the
    text of the exception for any other. *)
Theorem fetch_languages_request_raises (e : exn) :
  net (languages_request self) = Raises e ->
  run VNone (fetch_languages net self)
  = (inr (VList []),
     mkMachine (VList [])
       [if is_KeyError_or_ValueError e
        then "Error retrieving languages from CDS: Malformed response"
        else if is_ConnectionError e
        then "Error retrieving languages from CDS: ConnectionError"
        else "Error retrieving languages from CDS: UnknownError (`"
               ++ str e ++ "`)"]
       [languages_request self]).
Proof.
  intros Hnet. run_languages self. rewrite Hnet.
  destruct e; reflexivity.
Qed.

(** X5. When the reply has no error status and its body is JSON but not an
    object (an array, a string, a number, a boolean or null), reading
    [data] raises a [TypeError]: [fetch_languages] returns the empty list
    and logs [UnknownError] with the text of that error, not
    [Malformed response]. *)
Theorem fetch_languages_body_not_an_object (r : Reply) (j : value) :
  net (languages_request self) = Replies r ->
  ~ error_status (status_code r) ->
  body r = Some j ->
  (forall d, j <> VDict d) ->
  exists detail,
    subscript j "data" = inl (TypeError detail)
    /\ run VNone (fetch_languages net self)
       = (inr (VList []),
          mkMachine (VList [])
            ["Error retrieving languages from CDS: UnknownError (`"
               ++ detail ++ "`)"]
            [languages_request self]).
Proof.
  intros Hnet Hstatus Hbody Hj.
  pose proof (not_error_status_test _ Hstatus) as E.
  run_languages self. rewrite Hnet.
  unfold requests.ok. rewrite http_error_msg_none by exact E. cbn.
  unfold requests.json. cbn. rewrite Hbody. cbn. unfold lift.
  destruct j as [ | | | | | |d]; cbn;
    try (eexists; split; reflexivity).
  destruct (Hj d eq_refl).
Qed.

End MoreFetchLanguages.

(** X16. A handler constructed without a host, or with the empty host,
    sends its requests to [TRANSIFEX_CDS_HOST]. *)
Theorem default_host_is_used (net : Request -> Outcome)
    (configured : list string) (tok : string) (sec h : option string) :
  truthy_str h = false ->
  sent (snd (run VNone (fetch_languages net (__init__ configured tok sec h))))
  = [mkRequest GET "https://cds.svc.transifex.net/languages"
       [("Authorization", "Bearer " ++ tok)] None].
Proof.
  intros Hh. unfold run. rewrite fetch_languages_sent.
  unfold languages_request, __init__. cbn [host token sent app].
  destruct h as [u|]; [|reflexivity].
  cbn in Hh. apply negb_false_iff in Hh. rewrite Hh. reflexivity.
Qed.

(** * Further properties of fetch_translations *)

(** ** More on dictionaries *)

Section MoreDicts.

Context {A : Type}.
Implicit Types (d : dict A) (k : string) (v : A).

Lemma dict_set_new d k v :
  ~ In k (keys d) -> dict_set d k v = (d ++ [(k, v)])%list.
Proof.
  induction d as [|[k' v'] d IH]; cbn; [reflexivity|].
  intros Hnin. destruct (String.eqb k k') eqn:E.
  - apply String.eqb_eq in E. subst k'. exfalso. apply Hnin. left. reflexivity.
  - f_equal. apply IH. intros Hin. apply Hnin. right. exact Hin.
Qed.

Lemma keys_dict_set_incl d k v : incl (keys (dict_set d k v)) (keys d ++ [k]).
Proof.
  destruct (in_dec string_dec k (keys d)) as [Hin|Hnin].
  - rewrite keys_dict_set_in by exact Hin. apply incl_appl, incl_refl.
  - rewrite keys_dict_set_new by exact Hnin. apply incl_refl.
Qed.

Lemma keys_dict_set_iff d k v k' :
  In k' (keys (dict_set d k v)) <-> In k' (keys d) \/ k' = k.
Proof.
  destruct (in_dec string_dec k (keys d)) as [Hin|Hnin].
  - rewrite keys_dict_set_in by exact Hin. split; [auto|].
    intros [H| ->]; assumption.
  - rewrite keys_dict_set_new by exact Hnin. rewrite in_app_iff. cbn.
    split.
    + intros [H|[H|[]]]; [left; exact H|right; symmetry; exact H].
    + intros [H|H]; [left; exact H|right; left; symmetry; exact H].
Qed.

Lemma fold_dict_set_keys (pairs : list (string * A)) d k :
  In k (keys (fold_left (fun d kv => dict_set d (fst kv) (snd kv)) pairs d))
  <-> In k (keys d) \/ In k (map fst pairs).
Proof.
  revert d. induction pairs as [|[k' v'] pairs IH]; intros d;
    cbn [fold_left map].
  - split; [auto|]. intros [H|[]]. exact H.
  - rewrite IH, keys_dict_set_iff. cbn [fst snd In]. split.
    + intros [[H| ->]|H]; auto.
    + intros [H|[<-|H]]; auto.
Qed.

(** The keys of a dict built from pairs are the keys of the pairs. *)
Lemma dict_of_pairs_keys (pairs : list (string * A)) k :
  In k (keys (dict_of_pairs pairs)) <-> In k (map fst pairs).
Proof.
  unfold dict_of_pairs. rewrite fold_dict_set_keys. cbn. split; [|auto].
  intros [[]|H]. exact H.
Qed.

Lemma fold_dict_set_fresh (pairs : list (string * A)) d :
  NoDup (keys d ++ map fst pairs) ->
  fold_left (fun d kv => dict_set d (fst kv) (snd kv)) pairs d
  = (d ++ pairs)%list.
Proof.
  revert d. induction pairs as [|[k v] pairs IH]; intros d Hnd; cbn.
  - rewrite app_nil_r. reflexivity.
  - cbn in Hnd.
    assert (Hk : ~ In k (keys d)).
    { intros Hin. apply NoDup_remove_2 in Hnd. apply Hnd.
      apply in_or_app. left. exact Hin. }
    rewrite (dict_set_new d k v Hk). rewrite IH.
    + rewrite <- app_assoc. reflexivity.
    + unfold keys. rewrite map_app. cbn. rewrite <- app_assoc. exact Hnd.
Qed.

(** Pairs with different keys are stored as they are. *)
Lemma dict_of_pairs_distinct (pairs : list (string * A)) :
  NoDup (map fst pairs) -> dict_of_pairs pairs = pairs.
Proof. intros H. unfold dict_of_pairs. rewrite fold_dict_set_fresh; auto. Qed.

Lemma dict_get_tabulate (f : string -> A) (l : list string) k :
  (In k l -> dict_get (map (fun c => (c, f c)) l) k = Some (f k))
  /\ (~ In k l -> dict_get (map (fun c => (c, f c)) l) k = None).
Proof.
  induction l as [|c l [IHin IHout]]; cbn; [split; [intros []|reflexivity]|].
  destruct (String.eqb k c) eqn:E.
  - apply String.eqb_eq in E. subst c. split; [reflexivity|].
    intros H. exfalso. apply H. left. reflexivity.
  - apply String.eqb_neq in E. split.
    + intros [->|H]; [contradiction|exact (IHin H)].
    + intros H. apply IHout. intros Hin. apply H. right. exact Hin.
Qed.

End MoreDicts.

Section MoreFetchTranslations.

Variable net : Request -> Outcome.
Variable set_and : list string -> list string -> list string.
Variable self : CDSHandler.
Hypothesis order : iteration_order set_and.

Lemma fetch_one_frame (c : string) (s : Machine (dict value)) :
  incl (keys (frame (snd (fetch_one net self c s)))) (keys (frame s) ++ [c]).
Proof.
  unfold fetch_one, bind, requests.get, requests.send,
    FETCH_TRANSLATIONS_FOR_LANGUAGE.
  cbn. fold (content_request self c).
  destruct (net (content_request self c)) as [e|r];
    [apply incl_appl, incl_refl|].
  unfold requests.ok, requests.raise_for_status, requests.json.
  destruct (requests.http_error_msg _); cbn; [apply incl_appl, incl_refl|].
  destruct (body r) as [j|]; cbn; [|apply incl_appl, incl_refl].
  unfold lift. destruct (subscript j "data"); cbn;
    [apply incl_appl, incl_refl|apply keys_dict_set_incl].
Qed.

(** The loop issues the content requests of a prefix of its codes and
    stores keys among them. *)
Lemma for_each_shape (codes : list string) (s : Machine (dict value)) :
  exists n,
    sent (snd (for_each codes (fetch_one net self) s))
    = (sent s ++ map (content_request self) (firstn n codes))%list
    /\ incl (keys (frame (snd (for_each codes (fetch_one net self) s))))
         (keys (frame s) ++ firstn n codes).
Proof.
  revert s. induction codes as [|c codes IH]; intros s.
  - exists 0%nat. cbn. rewrite !app_nil_r. split; [reflexivity|apply incl_refl].
  - cbn [for_each]. unfold bind.
    pose proof (fetch_one_sent net self c s) as Hsent.
    pose proof (fetch_one_frame c s) as Hframe.
    destruct (fetch_one net self c s) as [[e|[]] s1]; cbn [snd] in *.
    + exists 1%nat. cbn. split; assumption.
    + destruct (IH s1) as (n & Hn & Hk). exists (S n). rewrite Hn, Hsent.
      cbn. rewrite <- app_assoc. split; [reflexivity|].
      intros k Hin. apply Hk in Hin. apply in_app_iff in Hin.
      destruct Hin as [Hin|Hin].
      * apply Hframe in Hin. apply in_app_iff in Hin.
        destruct Hin as [Hin|[<-|[]]].
        -- apply in_or_app. left. exact Hin.
        -- apply in_or_app. right. left. reflexivity.
      * apply in_or_app. right. right. exact Hin.
Qed.

(** The shape of every run of [fetch_translations]: the mapping in the
    frame is returned; the requests are the one for the languages, when no
    code is given, followed by content requests of different configured
    codes; the keys of the mapping are among these codes. *)
Lemma fetch_translations_shape (lc : option string) :
  exists codes,
    NoDup codes
    /\ incl codes (configured_language_codes self)
    /\ sent (snd (run [] (fetch_translations net set_and self lc)))
       = ((if truthy_str lc then [] else [languages_request self])
            ++ map (content_request self) codes)%list
    /\ incl (keys (frame (snd (run [] (fetch_translations net set_and self lc)))))
         codes
    /\ fst (run [] (fetch_translations net set_and self lc))
       = inr (frame (snd (run [] (fetch_translations net set_and self lc)))).
Proof.
  set (first := if truthy_str lc then [] else [languages_request self]).
  pose (Q := fun R : (exn + dict value) * Machine (dict value) =>
          exists codes,
            NoDup codes
            /\ incl codes (configured_language_codes self)
            /\ sent (snd R) = (first ++ map (content_request self) codes)%list
            /\ incl (keys (frame (snd R))) codes
            /\ fst R = inr (frame (snd R))).
  change (Q (run [] (fetch_translations net set_and self lc))).
  unfold run, fetch_translations.
  unfold bind at 1. cbn [put_local frame log sent].
  unfold bind at 1. unfold try_except.
  set (s0 := mkMachine (@nil (string * value)) [] []).
  pose (P := fun s : Machine (dict value) =>
          exists codes,
            NoDup codes
            /\ incl codes (configured_language_codes self)
            /\ sent s = (first ++ map (content_request self) codes)%list
            /\ incl (keys (frame s)) codes).
  assert (Hnone : forall s : Machine (dict value),
            sent s = first -> frame s = [] -> P s).
  { intros s Hs Hf. exists []. rewrite Hs, Hf, app_nil_r.
    repeat split; [constructor|intros x []|apply incl_refl]. }
  assert (Hbody : forall languages (s : Machine (dict value)),
            sent s = first -> frame s = [] ->
            P (snd ((codes <- lift (codes_to_fetch set_and self languages) ;;
                     for_each codes (fetch_one net self)) s))).
  { intros languages s Hs Hf. unfold bind, lift, codes_to_fetch.
    destruct (comprehension hash_check languages) as [e|hashed]; cbn [snd].
    - apply Hnone; assumption.
    - set (all := set_and (strings_of hashed) (configured_language_codes self)).
      destruct (for_each_shape all s) as (n & Hn & Hk).
      exists (firstn n all). rewrite Hn, Hs. rewrite Hf in Hk.
      repeat split.
      + apply NoDup_firstn, (order _ _).
      + intros c Hc.
        assert (Hall : In c all).
        { rewrite <- (firstn_skipn n all). apply in_or_app. left. exact Hc. }
        apply (proj2 (order _ _)) in Hall. exact (proj2 Hall).
      + exact Hk. }
  match goal with
  | |- context [match ?body s0 with _ => _ end] =>
      assert (Hshape : P (snd (body s0)));
      [|destruct (body s0) as [[e|[]] s1]; cbn [snd] in Hshape;
        destruct Hshape as (codes & H1 & H2 & H3 & H4); unfold Q; exists codes]
  end.
  - unfold bind at 1. unfold first in *.
    destruct (truthy_str lc); cbn [negb].
    + unfold ret. apply (Hbody _ s0); reflexivity.
    + unfold bind at 1. unfold call. cbn [frame log sent s0].
      pose proof (fetch_languages_sent net self (mkMachine VNone [] [])) as Hl.
      destruct (fetch_languages net self (mkMachine VNone [] [])) as [r s1].
      cbn [snd] in Hl. cbn [app sent] in Hl.
      destruct r as [e|fetched].
      * cbn [snd]. apply Hnone; [exact Hl|reflexivity].
      * unfold lift at 1. destruct (codes_of fetched) as [e|languages].
        -- cbn [snd]. apply Hnone; [exact Hl|reflexivity].
        -- apply Hbody; [exact Hl|reflexivity].
  - destruct e; cbn; repeat split; assumption.
  - cbn. repeat split; assumption.
Qed.

Lemma Forall2_tabulate (data : string -> value) (codes : list string) :
  (forall c, In c codes -> reply_data (net (content_request self c)) = Some (data c)) ->
  Forall2 (fun x v => reply_data (net (content_request self x)) = Some v)
    codes (map data codes).
Proof.
  induction codes as [|c codes IH]; intros H; cbn; constructor.
  - apply H. left. reflexivity.
  - apply IH. intros x Hx. apply H. right. exact Hx.
Qed.

Lemma combine_tabulate {B} (f : string -> B) (l : list string) :
  combine l (map f l) = map (fun c => (c, f c)) l.
Proof. induction l as [|c l IH]; cbn; [|rewrite IH]; reflexivity. Qed.

(** X6. When the language list is known and the content request of every
    language that is both listed and configured succeeds,
    [fetch_translations] logs nothing, issues one content request for each
    of these languages and returns the mapping of each of them to the
    [data] of its reply; no other language is a key of the result. *)
Theorem fetch_translations_all_succeed (lc : option string)
    (names : list string) (first : list Request) (data : string -> value) :
  languages_known net self lc names first ->
  (forall c, In c names -> In c (configured_language_codes self) ->
             reply_data (net (content_request self c)) = Some (data c)) ->
  let codes := set_and names (configured_language_codes self) in
  let translations := map (fun c => (c, data c)) codes in
  run [] (fetch_translations net set_and self lc)
  = (inr translations,
     mkMachine translations [] (first ++ map (content_request self) codes))
  /\ forall c,
       (In c names /\ In c (configured_language_codes self) ->
        dict_get translations c = Some (data c))
       /\ (~ (In c names /\ In c (configured_language_codes self)) ->
           dict_get translations c = None).
Proof.
  intros Hknown Hdata codes translations.
  destruct (order names (configured_language_codes self)) as [Hnd Hin].
  fold codes in Hnd, Hin.
  assert (Hok : Forall2
            (fun x v => reply_data (net (content_request self x)) = Some v)
            codes (map data codes)).
  { apply Forall2_tabulate. intros c Hc. apply Hin in Hc.
    apply Hdata; tauto. }
  assert (Hdict : dict_of_pairs (combine codes (map data codes)) = translations).
  { rewrite combine_tabulate. unfold translations.
    apply dict_of_pairs_distinct.
    rewrite map_map. cbn [fst]. rewrite map_id. exact Hnd. }
  split.
  - destruct Hknown as [c0 Hc0|lc langs names Hlc Hlangs Hrecords].
    + rewrite (fetch_translations_given net set_and self c0 Hc0).
      fold codes.
      rewrite (loop_success net self codes (map data codes) [] [] Hok), Hdict.
      reflexivity.
    + rewrite (fetch_translations_discovered net set_and self lc langs names
                 Hlc Hlangs Hrecords).
      fold codes.
      rewrite (loop_success net self codes (map data codes) [] _ Hok), Hdict.
      reflexivity.
  - intros c. unfold translations.
    destruct (dict_get_tabulate data codes c) as [Hyes Hno].
    split; intros H.
    + apply Hyes, Hin, H.
    + apply Hno. intros Hc. apply H, Hin, Hc.
Qed.

(** X7. Whatever the network does, every request of one call of
    [fetch_translations] is a GET without body that carries the bearer
    token only, for [/languages] or for [/content/<code>] with a configured
    code; no request is issued twice; and every key of the returned mapping
    is a configured code. *)
Theorem fetch_translations_stays_configured (lc : option string) :
  let outcome := run [] (fetch_translations net set_and self lc) in
  (forall rq, In rq (sent (snd outcome)) ->
     req_method rq = GET
     /\ req_json rq = None
     /\ req_headers rq = [("Authorization", "Bearer " ++ token self)]
     /\ (req_url rq = host self ++ "/languages"
         \/ exists c, In c (configured_language_codes self)
                      /\ req_url rq = host self ++ "/content/" ++ c))
  /\ NoDup (sent (snd outcome))
  /\ exists translations,
       fst outcome = inr translations
       /\ forall k, In k (keys translations) ->
                    In k (configured_language_codes self).
Proof.
  intros outcome. unfold outcome.
  destruct (fetch_translations_shape lc)
    as (codes & Hnd & Hincl & Hsent & Hkeys & Hres).
  split; [|split].
  - intros rq Hrq. rewrite Hsent in Hrq. apply in_app_iff in Hrq.
    destruct Hrq as [Hrq|Hrq].
    + destruct (truthy_str lc); [destruct Hrq|].
      destruct Hrq as [<-|[]]. cbn. auto.
    + apply in_map_iff in Hrq. destruct Hrq as (c & <- & Hc). cbn.
      repeat split. right. exists c. split; [apply Hincl, Hc|reflexivity].
  - apply (fetch_translations_requests_NoDup net set_and self order).
  - eexists. split; [exact Hres|].
    intros k Hk. apply Hincl, Hkeys, Hk.
Qed.

(** X8. One call of [fetch_translations] issues at most one request more
    than there are configured language codes. *)
Theorem fetch_translations_request_bound (lc : option string) :
  (List.length (sent (snd (run [] (fetch_translations net set_and self lc))))
   <= 1 + List.length (configured_language_codes self))%nat.
Proof.
  destruct (fetch_translations_shape lc)
    as (codes & Hnd & Hincl & Hsent & _).
  rewrite Hsent, length_app, length_map.
  pose proof (NoDup_incl_length Hnd Hincl) as Hlen.
  destruct (truthy_str lc); cbn [List.length]; lia.
Qed.

(** When the codes cannot be read off the languages, the handler of
    [fetch_translations] logs and the empty mapping is returned. *)
Lemma fetch_translations_codes_raise (lc : option string) (v : value) (e : exn) :
  truthy_str lc = false ->
  reply_data (net (languages_request self)) = Some v ->
  codes_of v = inl e ->
  run [] (fetch_translations net set_and self lc)
  = (inr [],
     mkMachine []
       [if is_KeyError_or_ValueError e
        then "Error retrieving translations from CDS: Malformed response"
        else if is_ConnectionError e
        then "Error retrieving translations from CDS: ConnectionError"
        else "Error retrieving translations from CDS: UnknownError (`"
               ++ str e ++ "`)"]
       [languages_request self]).
Proof.
  intros Hlc Hdata Hcodes. unfold run, fetch_translations.
  rewrite Hlc. cbn [negb].
  unfold bind at 1. cbn [put_local frame log sent].
  unfold bind at 1. unfold try_except. unfold bind at 1. unfold bind at 1.
  rewrite (call_fetch_languages_ok net self v _ Hdata).
  unfold lift. rewrite Hcodes. destruct e; reflexivity.
Qed.

Lemma codes_of_missing_code (before after : list value) (d : dict value) :
  Forall (fun lang => exists c, subscript lang "code" = inr c) before ->
  dict_get d "code" = None ->
  codes_of (VList (before ++ VDict d :: after)) = inl (KeyError "'code'").
Proof.
  intros Hbefore Hd. unfold codes_of. cbn [iterate].
  induction Hbefore as [|lang before [c Hc] _ IH]; cbn.
  - rewrite Hd. reflexivity.
  - rewrite Hc. cbn in IH. rewrite IH. reflexivity.
Qed.

(** X9. When no language code is given and [/languages] answers with a list
    in which a record has no [code] key (the records before it having
    one), [fetch_translations] returns the empty mapping after that single
    request and logs the one message
    [Error retrieving translations from CDS: Malformed response]. *)
Theorem fetch_translations_record_without_code (lc : option string)
    (before after : list value) (d : dict value) :
  truthy_str lc = false ->
  reply_data (net (languages_request self))
  = Some (VList (before ++ VDict d :: after)) ->
  Forall (fun lang => exists c, subscript lang "code" = inr c) before ->
  dict_get d "code" = None ->
  run [] (fetch_translations net set_and self lc)
  = (inr [],
     mkMachine []
       ["Error retrieving translations from CDS: Malformed response"]
       [languages_request self]).
Proof.
  intros Hlc Hdata Hbefore Hd.
  rewrite (fetch_translations_codes_raise lc _ _ Hlc Hdata
             (codes_of_missing_code before after d Hbefore Hd)).
  reflexivity.
Qed.

(** X10. When no language code is given and the [data] of [/languages] is
    null, a boolean or a number, iterating over it raises a [TypeError]:
    [fetch_translations] returns the empty mapping after that single
    request and logs [UnknownError] with the text of that error, under the
    heading of the translations. *)
Theorem fetch_translations_languages_not_iterable (lc : option string) (v : value) :
  truthy_str lc = false ->
  reply_data (net (languages_request self)) = Some v ->
  (forall l, v <> VList l) -> (forall d, v <> VDict d) -> (forall t, v <> VStr t) ->
  exists detail,
    iterate v = inl (TypeError detail)
    /\ run [] (fetch_translations net set_and self lc)
       = (inr [],
          mkMachine []
            ["Error retrieving translations from CDS: UnknownError (`"
               ++ detail ++ "`)"]
            [languages_request self]).
Proof.
  intros Hlc Hdata Hl Hd Ht.
  destruct v as [ | | | |t|l|d];
    try (eexists; split; [reflexivity|];
         rewrite (fetch_translations_codes_raise lc _ _ Hlc Hdata eq_refl);
         reflexivity).
  - destruct (Ht t eq_refl).
  - destruct (Hl l eq_refl).
  - destruct (Hd d eq_refl).
Qed.

End MoreFetchTranslations.

(** * Further properties of push_source_strings *)

Section MorePush.

Variable net : Request -> Outcome.
Variables k1 k2 k3 : string.
Variable self : CDSHandler.

(** X11. On a handler with a secret, when the POST raises instead of being
    answered (a connection error or any other exception), one message is
    logged, [ConnectionError] or [UnknownError] with the text of the
    exception, and the call then ends with an [UnboundLocalError]: the
    variable [response] returned after the handlers was never assigned. *)
Theorem push_raises_when_unanswered (strings : list SourceString)
    (purge : bool) (sec : string) (e : exn) :
  secret self = Some sec -> sec <> "" ->
  let rq := push_request self sec (posted_body k1 k2 k3 strings purge) in
  net rq = Raises e ->
  exists text,
    run None (push_source_strings net k1 k2 k3 self strings purge)
    = (inl (UnboundLocalError text),
       mkMachine None
         [if is_ConnectionError e
          then "Error pushing source strings to CDS: ConnectionError"
          else "Error pushing source strings to CDS: UnknownError (`"
                 ++ str e ++ "`)"]
         [rq]).
Proof.
  intros Hsec Hne rq Hnet. eexists.
  rewrite (push_run net k1 k2 k3 self strings purge sec Hsec Hne).
  fold rq. rewrite Hnet. reflexivity.
Qed.

(** X12. Whatever the handler, the strings and the network, one call of
    [push_source_strings] issues at most one request and logs at most one
    message. *)
Theorem push_at_most_one_request (strings : list SourceString) (purge : bool) :
  (List.length (sent (snd (run None (push_source_strings net k1 k2 k3 self
                                      strings purge)))) <= 1)%nat
  /\ (List.length (log (snd (run None (push_source_strings net k1 k2 k3 self
                                        strings purge)))) <= 1)%nat.
Proof.
  destruct (truthy_str (secret self)) eqn:Hsec.
  - destruct (secret self) as [sec|] eqn:Hs; [|discriminate].
    assert (Hne : sec <> "").
    { cbn in Hsec. apply negb_true_iff, String.eqb_neq in Hsec. exact Hsec. }
    rewrite (push_run net k1 k2 k3 self strings purge sec Hs Hne). cbn zeta.
    destruct (net _) as [e|r]; cbn; [lia|].
    destruct (requests.http_error_msg _); cbn; lia.
  - unfold run, push_source_strings. rewrite Hsec. cbn. lia.
Qed.

(** X13. On a handler with a secret, the [data] mapping of the posted body
    has exactly the keys of the given strings and no more entries than
    there are strings; when the keys of the strings are all different, it
    lists the serialized pairs in the order of the strings. *)
Theorem push_data_has_the_keys_of_the_strings (strings : list SourceString)
    (purge : bool) (sec : string) :
  secret self = Some sec -> sec <> "" ->
  exists data,
    map req_json
      (sent (snd (run None (push_source_strings net k1 k2 k3 self strings purge))))
    = [Some (VDict [("data", VDict data);
                    ("meta", VDict [("purge", VBool purge)])])]
    /\ (forall k, In k (keys data) <-> exists s, In s strings /\ ss_key s = k)
    /\ (List.length data <= List.length strings)%nat
    /\ (NoDup (map ss_key strings) -> data = map (_serialize k1 k2 k3) strings).
Proof.
  intros Hsec Hne.
  exists (dict_of_pairs (map (_serialize k1 k2 k3) strings)).
  assert (Hkeys : map fst (map (_serialize k1 k2 k3) strings) = map ss_key strings).
  { rewrite map_map. reflexivity. }
  split; [|split; [|split]].
  - rewrite (push_run net k1 k2 k3 self strings purge sec Hsec Hne).
    cbn zeta. destruct (net _); reflexivity.
  - intros k. rewrite dict_of_pairs_keys, Hkeys, in_map_iff.
    split; intros (s & H1 & H2); exists s; auto.
  - assert (Hlen : (List.length
                      (keys (dict_of_pairs (map (_serialize k1 k2 k3) strings)))
                    <= List.length (map fst (map (_serialize k1 k2 k3) strings)))%nat).
    { apply NoDup_incl_length; [apply dict_of_pairs_NoDup|].
      intros k Hk. exact (proj1 (dict_of_pairs_keys _ k) Hk). }
    unfold keys in Hlen. rewrite !length_map in Hlen. exact Hlen.
  - intros Hnd. apply dict_of_pairs_distinct. rewrite Hkeys. exact Hnd.
Qed.

(** X14. In the record [_serialize] builds, a non-empty context is stored
    under [context] in [meta], replacing a metadata value that was stored
    there; with an empty context, [meta] has a [context] key only if a
    metadata key is mapped to it. *)
Theorem _serialize_context (s : SourceString) :
  exists meta,
    _serialize k1 k2 k3 s
    = (ss_key s, VDict [("string", VStr (ss_string s)); ("meta", VDict meta)])
    /\ (truthy (ss_context s) = true ->
        dict_get meta "context" = Some (ss_context s))
    /\ (truthy (ss_context s) = false ->
        In "context" (keys meta) ->
        exists kv, In kv (ss_meta s) /\ MAPPING_get k1 k2 k3 (fst kv) = "context").
Proof.
  unfold _serialize. eexists. split; [reflexivity|].
  destruct (truthy (ss_context s)); split; try discriminate.
  - intros _. apply dict_get_set_same.
  - intros _ Hin. apply (proj1 (dict_of_pairs_keys _ _)) in Hin.
    rewrite map_map in Hin.
    apply in_map_iff in Hin. destruct Hin as (kv & Hkv & Hin).
    exists kv. split; assumption.
Qed.

(** X15. In the record [_serialize] builds, a metadata value is found under
    the mapped name of its key, provided no later item of the metadata is
    mapped to the same name and the name is not [context] when the context
    is non-empty. *)
Theorem _serialize_keeps_metadata (s : SourceString)
    (before after : dict value) (k : string) (v : value) :
  ss_meta s = (before ++ (k, v) :: after)%list ->
  (forall kv, In kv after ->
              MAPPING_get k1 k2 k3 (fst kv) <> MAPPING_get k1 k2 k3 k) ->
  truthy (ss_context s) = false \/ MAPPING_get k1 k2 k3 k <> "context" ->
  exists meta,
    _serialize k1 k2 k3 s
    = (ss_key s, VDict [("string", VStr (ss_string s)); ("meta", VDict meta)])
    /\ dict_get meta (MAPPING_get k1 k2 k3 k) = Some v.
Proof.
  intros Hmeta Hafter Hctx. unfold _serialize. eexists. split; [reflexivity|].
  assert (Hget : dict_get
                   (dict_of_pairs
                      (map (fun kv => (MAPPING_get k1 k2 k3 (fst kv), snd kv))
                         (ss_meta s)))
                   (MAPPING_get k1 k2 k3 k) = Some v).
  { rewrite Hmeta, map_app. cbn [map fst snd].
    apply dict_of_pairs_last. rewrite map_map. cbn [fst].
    intros Hin. apply in_map_iff in Hin. destruct Hin as (kv & Hkv & Hin).
    exact (Hafter kv Hin Hkv). }
  destruct (truthy (ss_context s)); [|exact Hget].
  destruct Hctx as [Hctx|Hctx]; [discriminate|].
  rewrite dict_get_set_other by exact Hctx. exact Hget.
Qed.

End MorePush.

(** * The helper of the tests *)

Section MoreTestHelpers.

Variable sorted_by_code : list value -> exn + list value.
Variable ne : value -> value -> bool.
Variable net : Request -> Outcome.
Variable self : CDSHandler.

(** X17. [_lang_lists_equal] compares only as many pairs as the shorter
    list has: when sorting the empty list gives the empty list and the
    expected list can be sorted, the empty list is reported equal to it,
    on either side. So the result of a failed [fetch_languages] passes the
    comparison with any expected list that can be sorted. *)
Theorem _lang_lists_equal_accepts_failed_fetch (expected : value)
    (sorted_expected : list value) :
  sorted_by_code [] = inr [] ->
  sorted_code sorted_by_code expected = inr sorted_expected ->
  reply_data (net (languages_request self)) = None ->
  _lang_lists_equal sorted_by_code ne (VList []) expected = true
  /\ _lang_lists_equal sorted_by_code ne expected (VList []) = true
  /\ exists result,
       fst (run VNone (fetch_languages net self)) = inr result
       /\ _lang_lists_equal sorted_by_code ne result expected = true.
Proof.
  intros Hnil Hexpected Hfail.
  assert (Hleft : _lang_lists_equal sorted_by_code ne (VList []) expected = true).
  { unfold _lang_lists_equal. unfold sorted_code at 1. cbn [iterate].
    rewrite Hnil, Hexpected. reflexivity. }
  split; [exact Hleft|]. split.
  - unfold _lang_lists_equal. rewrite Hexpected.
    unfold sorted_code. cbn [iterate]. rewrite Hnil.
    rewrite combine_nil. reflexivity.
  - exists (VList []). split; [|exact Hleft].
    unfold run.
    destruct (fetch_languages_failed net self (mkMachine VNone [] []) Hfail)
      as (msgs & -> & _).
    reflexivity.
Qed.

End MoreTestHelpers.

(** * The properties on the sample handlers *)

(** The scenario of the tests: 200 with the two languages. *)
Lemma fetch_languages_returns_data_witness :
  run VNone (fetch_languages (sample_net 200 "OK") sample_handler)
  = (inr sample_languages,
     mkMachine sample_languages [] [languages_request sample_handler]).
Proof.
  apply (fetch_languages_returns_data (sample_net 200 "OK") sample_handler
           (mkReply 200 "OK"
              (Some (VDict [("data", sample_languages);
                            ("meta", VDict [("some_key", VStr "some_value")])]))
              "https://some.host/languages")
           [("data", sample_languages);
            ("meta", VDict [("some_key", VStr "some_value")])]
           sample_languages); reflexivity.
Defined.

(** The scenario of the tests: 400 Bad Request. *)
Lemma fetch_languages_error_status_logged_witness :
  error_status 400
  /\ run VNone (fetch_languages (sample_net 400 "Bad Request") sample_handler)
     = (inr (VList []),
        mkMachine (VList [])
          ["Error retrieving languages from CDS: `Bad Request`";
           "Error retrieving languages from CDS: UnknownError (`400 Client Error: Bad Request for url: https://some.host/languages`)"]
          [languages_request sample_handler]).
Proof.
  assert (H : error_status 400) by (unfold error_status; lia).
  split; [exact H|].
  exact (proj1 (fetch_languages_error_status_logged
                  (sample_net 400 "Bad Request") sample_handler
                  (mkReply 400 "Bad Request"
                     (Some (VDict [("data", sample_languages);
                                   ("meta", VDict [("some_key", VStr "some_value")])]))
                     "https://some.host/languages")
                  eq_refl H)).
Defined.

(** C7 as stated fails for a status that is neither 2xx nor an error
    status: a 300 whose body has a [data] key is returned and nothing is
    logged. *)
Lemma fetch_languages_status_300 :
  ~ status_2xx 300
  /\ fst (run VNone (fetch_languages (sample_net 300 "Multiple Choices")
                       sample_handler))
     <> inr (VList [])
  /\ log (snd (run VNone (fetch_languages (sample_net 300 "Multiple Choices")
                            sample_handler)))
     = [].
Proof.
  split; [unfold status_2xx; lia|]. split; [|reflexivity].
  intros H. vm_compute in H. discriminate H.
Qed.

(** The scenario of the tests: [/languages] answers 500. *)
Lemma languages_failure_short_circuits_witness :
  exists msgs,
    run [] (fetch_translations (sample_net 500 "Internal Server Error")
              sample_set_and sample_handler None)
    = (inr [], mkMachine [] msgs [languages_request sample_handler])
    /\ log (snd (run VNone (fetch_languages (sample_net 500 "Internal Server Error")
                              sample_handler)))
       = msgs
    /\ msgs <> []
    /\ Forall (fun m => languages_error m = true /\ translations_error m = false)
         msgs.
Proof.
  apply (languages_failure_short_circuits (sample_net 500 "Internal Server Error")
           sample_set_and sample_handler None);
    [apply sample_set_and_order | reflexivity | reflexivity].
Defined.

(** [el] is fetched, then the request for [en] is answered 500. *)
Lemma content_failure_aborts_loop_witness :
  run [] (fetch_translations (sample_net 200 "OK") sample_set_and sample_handler None)
  = (inr [("el", sample_el)],
     mkMachine [("el", sample_el)]
       ["Error retrieving translations from CDS: `Internal Server Error`";
        "Error retrieving translations from CDS: UnknownError (`500 Server Error: Internal Server Error for url: https://some.host/content/en`)"]
       [languages_request sample_handler;
        content_request sample_handler "el";
        content_request sample_handler "en"]).
Proof.
  destruct (content_failure_aborts_loop (sample_net 200 "OK") sample_set_and
              sample_handler None ["el"; "en"] [languages_request sample_handler]
              ["el"] [] "en" [sample_el])
    as (f & Hf & Hrun & _).
  - apply (codes_fetched (sample_net 200 "OK") sample_handler None
             [[("code", VStr "el")]; [("code", VStr "en")]] ["el"; "en"]);
      [reflexivity | reflexivity | repeat constructor].
  - reflexivity.
  - repeat constructor.
  - reflexivity.
  - cbn in Hf. injection Hf as <-. exact Hrun.
Defined.

(** C4 as stated fails for an error status: two messages are logged, not
    one. *)
Lemma content_error_status_logs_twice :
  failure_of (sample_net 200 "OK" (content_request sample_handler "en"))
  = Some (StatusFailure 500 "Internal Server Error"
            "https://some.host/content/en")
  /\ List.length (log (snd (run [] (fetch_translations (sample_net 200 "OK")
                                 sample_set_and sample_handler None))))
     <> 1%nat.
Proof.
  split; [reflexivity|]. intros H. vm_compute in H. discriminate H.
Qed.

(** The scenario of the tests: [language_code='el']. *)
Lemma given_language_code_is_used_witness :
  let outcome :=
    run [] (fetch_translations (sample_net 200 "OK") sample_set_and
              sample_handler (Some "el")) in
  ~ In (languages_request sample_handler) (sent (snd outcome))
  /\ (In "el" (configured_language_codes sample_handler) ->
      sent (snd outcome) = [content_request sample_handler "el"]
      /\ forall v,
           reply_data (sample_net 200 "OK" (content_request sample_handler "el"))
           = Some v ->
           fst outcome = inr [("el", v)] /\ log (snd outcome) = [])
  /\ (~ In "el" (configured_language_codes sample_handler) ->
      outcome = (inr [], mkMachine [] [] [])).
Proof.
  apply (given_language_code_is_used (sample_net 200 "OK") sample_set_and
           sample_handler "el");
    [apply sample_set_and_order | discriminate].
Defined.

(** C5 as stated fails for the empty code: it counts as no code, and
    [/languages] is requested. *)
Lemma empty_language_code_fetches_languages :
  In (languages_request sample_handler)
    (sent (snd (run [] (fetch_translations (sample_net 200 "OK") sample_set_and
                          sample_handler (Some ""))))).
Proof. left. reflexivity. Qed.

(** The scenario of the tests: no secret. *)
Lemma push_without_secret_raises_witness :
  truthy_str (secret sample_handler) = false
  /\ run None (push_source_strings unreachable_net "_comment" "_charlimit" "_tags"
                 sample_handler [] false)
     = (inl (PyException
               "You need to use `TRANSIFEX_SECRET` when pushing source content"),
        mkMachine None [] []).
Proof.
  split; [reflexivity|].
  apply (push_without_secret_raises unreachable_net "_comment" "_charlimit" "_tags"
           sample_handler [] false).
  reflexivity.
Defined.

(** C2 as stated fails on the text of the message. *)
Lemma push_without_secret_message :
  exists e,
    fst (run None (push_source_strings unreachable_net "_comment" "_charlimit"
                     "_tags" sample_handler [] false))
    = inl e
    /\ str e <> "You need to use the secret when pushing source content".
Proof. eexists. split; [reflexivity|]. cbn. discriminate. Qed.

(** The scenario of the tests: 422. *)
Lemma push_returns_response_witness :
  let response :=
    mkResponse "https://some.host/content/"
      (mkReply 422 "Unprocessable Entity" (Some (VDict [("data", VList [])]))
         "https://some.host/content/") in
  run None (push_source_strings (sample_net 422 "Unprocessable Entity")
              "_comment" "_charlimit" "_tags" sample_pusher [] false)
  = (inr response,
     mkMachine (Some response)
       ["Error pushing source strings to CDS: UnknownError (`422 Client Error: Unprocessable Entity for url: https://some.host/content/`)"]
       [push_request sample_pusher "some_secret"
          (posted_body "_comment" "_charlimit" "_tags" [] false)]).
Proof.
  apply (push_returns_response (sample_net 422 "Unprocessable Entity")
           "_comment" "_charlimit" "_tags" sample_pusher [] false "some_secret"
           (mkReply 422 "Unprocessable Entity" (Some (VDict [("data", VList [])]))
              "https://some.host/content/"));
    [reflexivity | discriminate | reflexivity].
Defined.

(** C1 as stated fails for a status that is neither 2xx nor an error
    status: nothing is logged for a 300. *)
Lemma push_status_300_logs_nothing :
  ~ (~ status_2xx 300 ->
     exists detail,
       In ("Error pushing source strings to CDS: UnknownError (`" ++ detail ++ "`)")
         (log (snd (run None (push_source_strings
                                (sample_net 300 "Multiple Choices")
                                "_comment" "_charlimit" "_tags"
                                sample_pusher [] false))))).
Proof.
  intros H. destruct H as [detail []]. unfold status_2xx. lia.
Qed.

(** When the server cannot be reached, the ConnectionError message is logged
    and then [return response] finds the variable unbound. *)
Lemma push_connection_error_unbound :
  run None (push_source_strings unreachable_net "_comment" "_charlimit" "_tags"
              sample_pusher [] false)
  = (inl (UnboundLocalError
            "cannot access local variable 'response' where it is not associated with a value"),
     mkMachine None
       ["Error pushing source strings to CDS: ConnectionError"]
       [push_request sample_pusher "some_secret"
          (posted_body "_comment" "_charlimit" "_tags" [] false)]).
Proof. reflexivity. Qed.

Lemma push_posts_serialized_strings_witness :
  exists data,
    sent (snd (run None (push_source_strings (sample_net 200 "OK")
                           "_comment" "_charlimit" "_tags" sample_pusher
                           [sample_string; sample_string'] true)))
    = [mkRequest POST "https://some.host/content/"
         [("Authorization", "Bearer some_token:some_secret")]
         (Some (VDict [("data", VDict data);
                       ("meta", VDict [("purge", VBool true)])]))]
    /\ mapping_of data
         (map (_serialize "_comment" "_charlimit" "_tags")
            [sample_string; sample_string']).
Proof.
  assert (Hkeys : distinct_keys "_comment" "_charlimit" "_tags").
  { repeat constructor; cbn; intuition discriminate. }
  assert (Hne : "some_secret" <> "") by discriminate.
  exact (proj1 (proj2 (proj2 (push_posts_serialized_strings (sample_net 200 "OK")
                         "_comment" "_charlimit" "_tags" sample_pusher
                         [sample_string; sample_string'] true "some_secret"
                         Hkeys eq_refl Hne)))).
Defined.

Lemma push_keeps_last_of_equal_keys_witness :
  exists data,
    map req_json
      (sent (snd (run None (push_source_strings (sample_net 200 "OK")
                              "_comment" "_charlimit" "_tags" sample_pusher
                              [sample_string; sample_string'] false))))
    = [Some (VDict [("data", VDict data);
                    ("meta", VDict [("purge", VBool false)])])]
    /\ count_occ string_dec (keys data) "k1" = 1%nat
    /\ dict_get data "k1"
       = Some (VDict [("string", VStr "another_string");
                      ("meta", VDict [("tags", VList [VStr "t"])])]).
Proof.
  apply (push_keeps_last_of_equal_keys (sample_net 200 "OK")
           "_comment" "_charlimit" "_tags" sample_pusher
           [sample_string; sample_string'] [] [] [] sample_string sample_string'
           false "some_secret");
    [reflexivity | discriminate | reflexivity | reflexivity | intros s []].
Defined.

(** * The further properties on the sample handlers *)

(** The scenario of the tests: 200 with [wrong_key] in place of [data]. *)
Lemma fetch_languages_malformed_witness :
  run VNone (fetch_languages
               (payload_net (Some (VDict [("wrong_key", sample_languages)])))
               sample_handler)
  = (inr (VList []),
     mkMachine (VList [])
       ["Error retrieving languages from CDS: Malformed response"]
       [languages_request sample_handler]).
Proof.
  apply (fetch_languages_malformed
           (payload_net (Some (VDict [("wrong_key", sample_languages)])))
           sample_handler
           (mkReply 200 "OK" (Some (VDict [("wrong_key", sample_languages)]))
              "https://some.host/languages")).
  - reflexivity.
  - unfold error_status. cbn. lia.
  - right. exists [("wrong_key", sample_languages)]. split; reflexivity.
Defined.

(** The scenario of the tests: no server. *)
Lemma fetch_languages_request_raises_witness :
  run VNone (fetch_languages unreachable_net sample_handler)
  = (inr (VList []),
     mkMachine (VList [])
       ["Error retrieving languages from CDS: ConnectionError"]
       [languages_request sample_handler]).
Proof.
  apply (fetch_languages_request_raises unreachable_net sample_handler
           (ConnectionError "Connection refused")).
  reflexivity.
Defined.

(** The body is a JSON array. *)
Lemma fetch_languages_body_not_an_object_witness :
  exists detail,
    subscript sample_languages "data" = inl (TypeError detail)
    /\ run VNone (fetch_languages (payload_net (Some sample_languages))
                    sample_handler)
       = (inr (VList []),
          mkMachine (VList [])
            ["Error retrieving languages from CDS: UnknownError (`"
               ++ detail ++ "`)"]
            [languages_request sample_handler]).
Proof.
  apply (fetch_languages_body_not_an_object (payload_net (Some sample_languages))
           sample_handler
           (mkReply 200 "OK" (Some sample_languages) "https://some.host/languages")
           sample_languages).
  - reflexivity.
  - unfold error_status. cbn. lia.
  - reflexivity.
  - intros d. discriminate.
Defined.

Lemma default_host_is_used_witness :
  sent (snd (run VNone (fetch_languages unreachable_net sample_handler_default)))
  = [mkRequest GET "https://cds.svc.transifex.net/languages"
       [("Authorization", "Bearer some_token")] None].
Proof.
  apply (default_host_is_used unreachable_net ["el"; "en"] "some_token" None None).
  reflexivity.
Defined.

(** Two languages are listed, one is configured and its request succeeds. *)
Lemma fetch_translations_all_succeed_witness :
  run [] (fetch_translations (sample_net 200 "OK") sample_set_and
            sample_handler_el None)
  = (inr [("el", sample_el)],
     mkMachine [("el", sample_el)] []
       [languages_request sample_handler_el;
        content_request sample_handler_el "el"]).
Proof.
  refine (proj1 (fetch_translations_all_succeed (sample_net 200 "OK")
                   sample_set_and sample_handler_el sample_set_and_order None
                   ["el"; "en"] [languages_request sample_handler_el]
                   (fun _ => sample_el) _ _)).
  - apply (codes_fetched (sample_net 200 "OK") sample_handler_el None
             [[("code", VStr "el")]; [("code", VStr "en")]] ["el"; "en"]);
      [reflexivity | reflexivity | repeat constructor].
  - intros c _ [<-|[]]. reflexivity.
Defined.

Lemma fetch_translations_stays_configured_witness :
  NoDup (sent (snd (run [] (fetch_translations (sample_net 200 "OK")
                              sample_set_and sample_handler None)))).
Proof.
  exact (proj1 (proj2 (fetch_translations_stays_configured (sample_net 200 "OK")
                         sample_set_and sample_handler sample_set_and_order
                         None))).
Defined.

Lemma fetch_translations_request_bound_witness :
  (List.length (sent (snd (run [] (fetch_translations (sample_net 200 "OK")
                                    sample_set_and sample_handler None))))
   <= 3)%nat.
Proof.
  exact (fetch_translations_request_bound (sample_net 200 "OK") sample_set_and
           sample_handler sample_set_and_order None).
Defined.

(** The second record has [name] in place of [code]. *)
Lemma fetch_translations_record_without_code_witness :
  run [] (fetch_translations
            (payload_net
               (Some (VDict [("data",
                              VList [VDict [("code", VStr "el")];
                                     VDict [("name", VStr "English")]])])))
            sample_set_and sample_handler None)
  = (inr [],
     mkMachine []
       ["Error retrieving translations from CDS: Malformed response"]
       [languages_request sample_handler]).
Proof.
  apply (fetch_translations_record_without_code
           (payload_net
              (Some (VDict [("data",
                             VList [VDict [("code", VStr "el")];
                                    VDict [("name", VStr "English")]])])))
           sample_set_and sample_handler None
           [VDict [("code", VStr "el")]] [] [("name", VStr "English")]).
  - reflexivity.
  - reflexivity.
  - repeat constructor. exists (VStr "el"). reflexivity.
  - reflexivity.
Defined.

(** The [data] of [/languages] is null. *)
Lemma fetch_translations_languages_not_iterable_witness :
  exists detail,
    iterate VNone = inl (TypeError detail)
    /\ run [] (fetch_translations (payload_net (Some (VDict [("data", VNone)])))
                 sample_set_and sample_handler None)
       = (inr [],
          mkMachine []
            ["Error retrieving translations from CDS: UnknownError (`"
               ++ detail ++ "`)"]
            [languages_request sample_handler]).
Proof.
  apply (fetch_translations_languages_not_iterable
           (payload_net (Some (VDict [("data", VNone)])))
           sample_set_and sample_handler None VNone);
    try reflexivity; intros x; discriminate.
Defined.

(** The scenario of a server that cannot be reached. *)
Lemma push_raises_when_unanswered_witness :
  exists text,
    run None (push_source_strings unreachable_net "_comment" "_charlimit" "_tags"
                sample_pusher [sample_string] false)
    = (inl (UnboundLocalError text),
       mkMachine None
         ["Error pushing source strings to CDS: ConnectionError"]
         [push_request sample_pusher "some_secret"
            (posted_body "_comment" "_charlimit" "_tags" [sample_string] false)]).
Proof.
  apply (push_raises_when_unanswered unreachable_net "_comment" "_charlimit"
           "_tags" sample_pusher [sample_string] false "some_secret"
           (ConnectionError "Connection refused"));
    [reflexivity | discriminate | reflexivity].
Defined.

Lemma push_data_has_the_keys_of_the_strings_witness :
  exists data,
    map req_json
      (sent (snd (run None (push_source_strings (sample_net 200 "OK")
                              "_comment" "_charlimit" "_tags" sample_pusher
                              [sample_string; sample_string'] false))))
    = [Some (VDict [("data", VDict data);
                    ("meta", VDict [("purge", VBool false)])])]
    /\ (forall k, In k (keys data)
                  <-> exists s, In s [sample_string; sample_string']
                                /\ ss_key s = k)
    /\ (List.length data <= 2)%nat
    /\ (NoDup (map ss_key [sample_string; sample_string']) ->
        data = map (_serialize "_comment" "_charlimit" "_tags")
                 [sample_string; sample_string']).
Proof.
  apply (push_data_has_the_keys_of_the_strings (sample_net 200 "OK")
           "_comment" "_charlimit" "_tags" sample_pusher
           [sample_string; sample_string'] false "some_secret");
    [reflexivity | discriminate].
Defined.

(** The developer comment of [sample_string] is found under
    [developer_comment]. *)
Lemma _serialize_keeps_metadata_witness :
  exists meta,
    _serialize "_comment" "_charlimit" "_tags" sample_string
    = ("k1", VDict [("string", VStr "some_string"); ("meta", VDict meta)])
    /\ dict_get meta "developer_comment" = Some (VStr "a comment").
Proof.
  apply (_serialize_keeps_metadata "_comment" "_charlimit" "_tags" sample_string
           [] [("_charlimit", VInt 20); ("other", VBool true)]
           "_comment" (VStr "a comment")).
  - reflexivity.
  - intros kv [<-|[<-|[]]]; cbn; discriminate.
  - right. cbn. discriminate.
Defined.

(** The assertion of the test on the two languages holds for the result of
    a fetch that failed with a 500. *)
Lemma _lang_lists_equal_accepts_failed_fetch_witness :
  _lang_lists_equal sample_sorted sample_ne (VList []) sample_languages = true
  /\ _lang_lists_equal sample_sorted sample_ne sample_languages (VList []) = true
  /\ exists result,
       fst (run VNone (fetch_languages (sample_net 500 "Internal Server Error")
                         sample_handler))
       = inr result
       /\ _lang_lists_equal sample_sorted sample_ne result sample_languages = true.
Proof.
  apply (_lang_lists_equal_accepts_failed_fetch sample_sorted sample_ne
           (sample_net 500 "Internal Server Error") sample_handler
           sample_languages
           [VDict [("code", VStr "el")]; VDict [("code", VStr "en")]]);
    reflexivity.
Defined.

(** * The URL in the messages *)

(** The text of the HTTP error names the URL the library reports, which
    need not be the string the handler passed: capitals in the host. *)
Lemma fetch_languages_logs_reported_url :
  run VNone (fetch_languages preparing_net sample_handler_capitals)
  = (inr (VList []),
     mkMachine (VList [])
       ["Error retrieving languages from CDS: `Not Found`";
        "Error retrieving languages from CDS: UnknownError (`404 Client Error: Not Found for url: https://some.host/languages`)"]
       [mkRequest GET "https://Some.Host/languages"
          [("Authorization", "Bearer some_token")] None]).
Proof. reflexivity. Qed.

(** The same for a content request: a space in the language code. *)
Lemma fetch_translations_logs_reported_url :
  run [] (fetch_translations preparing_net sample_set_and sample_handler_space
            (Some "pt BR"))
  = (inr [],
     mkMachine []
       ["Error retrieving translations from CDS: `Not Found`";
        "Error retrieving translations from CDS: UnknownError (`404 Client Error: Not Found for url: https://some.host/content/pt%20BR`)"]
       [mkRequest GET "https://some.host/content/pt BR"
          [("Authorization", "Bearer some_token")] None]).
Proof. reflexivity. Qed.
